(** * server.js: slide synchronisation, elements, responses and results

    A shallow embedding of the route handlers of [src/server.js] and the
    properties of the in-memory store they maintain.

    The three module-level variables of the server ([currentSlide],
    [presentationElements], [responses]) form the record [Store]; every
    route handler is a function from the store and the request's fields to
    the reply (and, for the routes that write, the next store).  A handler
    runs to completion before the next request is looked at (there is no
    [await] in the file), so one request is one step.

    Request fields are taken at the types of the data model: identifiers,
    names and titles are strings, [options] is an array of strings,
    [option] is an integer; each may be absent.  [new Date()] is the
    handler's argument [now] (milliseconds), [process.uptime()] its argument
    [uptime].  The calls of [console.log] and of the two [broadcast...]
    functions, which only log, are left out. *)

From Stdlib Require Import ZArith PrimFloat FloatOps SpecFloat Uint63.
From stdpp Require Import gmap strings list fin_maps.

#[local] Set Warnings "-inexact-float".

Local Open Scope string_scope.
Local Open Scope list_scope.
Local Open Scope nat_scope.

(** ** Data model *)

(** The object stored at [presentationElements[id]] (lines 87-93). *)
Module Element.
Record t : Type := mk
  { id : string;
    type : string;
    title : string;
    options : list string;
    createdAt : Z }.
End Element.

(** The object pushed on [responses[elementId]] (lines 161-167). *)
Module Response.
Record t : Type := mk
  { user : string;
    timestamp : Z;
    response : Datatypes.option string;
    option : Datatypes.option Z;
    optionText : Datatypes.option string }.
End Response.

(** ** Property reads

    [presentationElements] and [responses] are object literals, so a
    property read [obj[key]] that finds no own property continues on the
    prototype chain and ends in [Object.prototype].  [JsVal] lists the
    values a read of [presentationElements[key]] can produce. *)
Inductive JsVal : Type :=
  | VUndefined
  | VElement (e : Element.t)
  | VString (s : string)
  | VIsoDate (t : Z)                (* the ISO string of a [Date] *)
  | VStrings (l : list string)
  | VFunction (arity : nat)         (* a built-in function, with its [length] *)
  | VObjectPrototype.               (* [Object.prototype] itself *)

(** [!v] is [negb (truthy v)]. *)
Definition truthy (v : JsVal) : bool :=
  match v with
  | VUndefined => false
  | VString s => negb (String.eqb s "")
  | _ => true
  end.

(** The function-valued properties of [Object.prototype], each with the
    [length] of the function, as ECMAScript defines them (properties of the
    Object prototype object; [constructor] is [Object] itself). *)
Definition object_prototype_methods : list (string * nat) :=
  [ ("constructor", 1); ("hasOwnProperty", 1); ("isPrototypeOf", 1);
    ("propertyIsEnumerable", 1); ("toLocaleString", 0); ("toString", 0);
    ("valueOf", 0); ("__defineGetter__", 2); ("__defineSetter__", 2);
    ("__lookupGetter__", 1); ("__lookupSetter__", 1) ]%nat.

Fixpoint assoc (k : string) (l : list (string * nat)) : option nat :=
  match l with
  | [] => None
  | (k', n) :: l => if String.eqb k k' then Some n else assoc k l
  end.

(** [Object.prototype[k]] for [k] other than ["__proto__"]. *)
Definition object_prototype_get (k : string) : JsVal :=
  match assoc k object_prototype_methods with
  | Some n => VFunction n
  | None => VUndefined
  end.

(** [presentationElements]: its own properties and its prototype.  [proto]
    is [None] while the prototype is [Object.prototype], and [Some e] once
    an assignment to the key ["__proto__"] has replaced it by the element
    [e] (the [__proto__] setter of [Object.prototype]). *)
Record ElementsObject : Type := mkElements
  { own : gmap string Element.t;
    proto : option Element.t }.

(** An own property of an element object, read by name. *)
Definition element_field (e : Element.t) (k : string) : option JsVal :=
  if String.eqb k "id" then Some (VString (Element.id e))
  else if String.eqb k "type" then Some (VString (Element.type e))
  else if String.eqb k "title" then Some (VString (Element.title e))
  else if String.eqb k "options" then Some (VStrings (Element.options e))
  else if String.eqb k "createdAt" then Some (VIsoDate (Element.createdAt e))
  else None.

(** What [presentationElements[k]] finds past the own properties. *)
Definition elements_inherited (o : ElementsObject) (k : string) : JsVal :=
  if String.eqb k "__proto__" then
    match proto o with
    | Some p => VElement p
    | None => VObjectPrototype
    end
  else
    match proto o with
    | Some p =>
        match element_field p k with
        | Some v => v
        | None => object_prototype_get k
        end
    | None => object_prototype_get k
    end.

(** [presentationElements[k]] *)
Definition elements_get (o : ElementsObject) (k : string) : JsVal :=
  match own o !! k with
  | Some e => VElement e
  | None => elements_inherited o k
  end.

(** [presentationElements[k] = e] *)
Definition elements_set (o : ElementsObject) (k : string) (e : Element.t)
  : ElementsObject :=
  if String.eqb k "__proto__" then {| own := own o; proto := Some e |}
  else {| own := <[k := e]> (own o); proto := proto o |}.

(** [delete presentationElements[k]]: own properties only. *)
Definition elements_delete (o : ElementsObject) (k : string) : ElementsObject :=
  {| own := delete k (own o); proto := proto o |}.

(** The values a read of [responses[k]] can produce: an array of
    responses, or what the prototype chain holds. *)
Inductive ResponsesVal : Type :=
  | RUndefined
  | RArray (l : list Response.t)
  | RFunction (arity : nat)
  | RObjectPrototype.

(** All of them but [undefined] are truthy, the empty array included. *)
Definition truthy_responses (v : ResponsesVal) : bool :=
  match v with
  | RUndefined => false
  | _ => true
  end.

(** What [responses[k]] finds past the own properties; the prototype of
    [responses] is always [Object.prototype]. *)
Definition responses_inherited (k : string) : ResponsesVal :=
  if String.eqb k "__proto__" then RObjectPrototype
  else
    match assoc k object_prototype_methods with
    | Some n => RFunction n
    | None => RUndefined
    end.

(** [responses[k]] *)
Definition responses_get (m : gmap string (list Response.t)) (k : string)
  : ResponsesVal :=
  match m !! k with
  | Some l => RArray l
  | None => responses_inherited k
  end.

(** [v || []] *)
Definition or_empty (v : ResponsesVal) : ResponsesVal :=
  if truthy_responses v then v else RArray [].

(** [v.length]; [None] is [undefined], which is what [Object.prototype]
    has for [length]. *)
Definition js_length (v : ResponsesVal) : option nat :=
  match v with
  | RArray l => Some (length l)
  | RFunction n => Some n
  | _ => None
  end.

(** ** The store (lines 19-22) *)
Record Store : Type := mkStore
  { currentSlide : string;
    presentationElements : ElementsObject;
    responses : gmap string (list Response.t) }.

Definition init : Store :=
  {| currentSlide := "";
     presentationElements := {| own := ∅; proto := None |};
     responses := ∅ |}.

(** ** Replies *)

(** [res.json(a)], [res.status(code).json({error})], or an exception thrown
    by the handler, which the error middleware (lines 299-305) turns into
    status 500. *)
Inductive Reply (A : Type) : Type :=
  | Json (a : A)
  | Status (code : Z) (error : string)
  | Thrown.
Arguments Json {A} a.
Arguments Status {A} code error.
Arguments Thrown {A}.

(** The status codes behind the error names of the specification. *)
Definition ValidationError : Z := 400.
Definition NotFoundError : Z := 404.
Definition UnauthorizedError : Z := 401.

(** ** Numbers: the percentage of lines 231 and 236

    JavaScript numbers are binary64 floats; [count] and [length] are small
    integers, which binary64 holds exactly. *)
Definition of_nat (n : nat) : float :=
  PrimFloat.of_uint63 (Uint63.of_Z (Z.of_nat n)).

(** [Math.round]: the nearest integer, ties towards +infinity.  A float
    [m * 2^e] with [e >= 0] is an integer already. *)
Definition Math_round (x : float) : float :=
  match Prim2SF x with
  | S754_finite s m e =>
      if (0 <=? e)%Z then x
      else
        let num := (if s then Z.neg m else Z.pos m) in
        let n := ((2 * num + 2 ^ (- e)) / 2 ^ (1 - e))%Z in
        if (n =? 0)%Z then (if s then (-0)%float else 0%float)
        else if (n <? 0)%Z then
          PrimFloat.opp (PrimFloat.of_uint63 (Uint63.of_Z (- n)))
        else PrimFloat.of_uint63 (Uint63.of_Z n)
  | _ => x
  end.

(** Lines 231 and 236, for [count] matches among [len] responses. *)
Definition percentage_of (count len : nat) : float :=
  let percentage :=
    if (0 <? len)%nat then (of_nat count / of_nat len * 100)%float
    else 0%float in
  (Math_round (percentage * 10) / 10)%float.

(** The formula in the words of the specification:
    [round(count/total*1000)/10], and [0] when [total = 0]. *)
Definition spec_percentage (count total : nat) : float :=
  if (0 <? total)%nat then
    (Math_round (of_nat count / of_nat total * 1000) / 10)%float
  else 0%float.

(** The same formula in exact arithmetic, in tenths of a percent:
    [round(1000 * count / total)] with ties upwards. *)
Definition exact_tenths (count total : nat) : Z :=
  if (0 <? total)%nat then
    ((2 * 1000 * Z.of_nat count + Z.of_nat total) / (2 * Z.of_nat total))%Z
  else 0%Z.

(** ** Request bodies and reply payloads *)

(** The truthy view of an optional string field: [Some s] when the field
    passes an [if (!field)] guard. *)
Definition field (f : option string) : option string :=
  match f with
  | Some s => if String.eqb s "" then None else Some s
  | None => None
  end.

Module ElementBody.
Record t : Type := mk
  { id : Datatypes.option string;
    type : Datatypes.option string;
    title : Datatypes.option string;
    options : Datatypes.option (list string) }.
End ElementBody.

Module ResponseBody.
Record t : Type := mk
  { elementId : Datatypes.option string;
    user : Datatypes.option string;
    response : Datatypes.option string;
    option : Datatypes.option Z;
    optionText : Datatypes.option string }.
End ResponseBody.

Module SyncAck.
Record t : Type := mk { success : bool; message : string; timestamp : Z }.
End SyncAck.

Module CurrentSlide.
Record t : Type := mk { currentSlide : string; timestamp : Z }.
End CurrentSlide.

Module ElementSaved.
Record t : Type := mk { success : bool; message : string; element : JsVal }.
End ElementSaved.

Module Ack.
Record t : Type := mk { success : bool; message : string }.
End Ack.

Module ResponseRecorded.
Record t : Type := mk
  { success : bool; message : string; responseCount : Datatypes.option nat }.
End ResponseRecorded.

Module ResponseList.
Record t : Type := mk
  { elementId : string; responses : ResponsesVal; count : Datatypes.option nat }.
End ResponseList.

Module TextEntry.
Record t : Type := mk
  { user : string; response : Datatypes.option string; timestamp : Z }.
End TextEntry.

Module OptionResult.
Record t : Type := mk { text : string; count : nat; percentage : float }.
End OptionResult.

(** [results]: [{type: 'text', responses}] or [{type: 'choice', options,
    total}].  [options] is an object whose keys are the indices
    [0 .. n-1]; it is the list of its values, in index order. *)
Inductive Results : Type :=
  | Text (responses : list TextEntry.t)
  | Choice (options : list OptionResult.t) (total : option nat).

Module ResultsBody.
Record t : Type := mk
  { elementId : string; element : Element.t; results : Results; timestamp : Z }.
End ResultsBody.

Module Health.
Record t : Type := mk
  { status : string;
    uptime : float;
    timestamp : Z;
    currentSlide : string;
    elementsCount : nat;
    responsesCount : nat }.
End Health.

(** ** Route handlers *)

(** [GET /api/sync] (lines 45-65) *)
Definition get_api_sync (st : Store) (now : Z) (slideName : option string)
  : Store * Reply SyncAck.t :=
  match field slideName with
  | None => (st, Status 400 "Missing slideName parameter")
  | Some slideName =>
      ({| currentSlide := slideName;
          presentationElements := presentationElements st;
          responses := responses st |},
       Json {| SyncAck.success := true;
               SyncAck.message := "Slide updated to: " +:+ slideName;
               SyncAck.timestamp := now |})
  end.

(** [GET /api/current-slide] (lines 70-75) *)
Definition get_api_current_slide (st : Store) (now : Z) : Reply CurrentSlide.t :=
  Json {| CurrentSlide.currentSlide := currentSlide st;
          CurrentSlide.timestamp := now |}.

(** [POST /api/elements] (lines 80-102) *)
Definition post_api_elements (st : Store) (now : Z) (body : ElementBody.t)
  : Store * Reply ElementSaved.t :=
  match field (ElementBody.id body), field (ElementBody.type body),
        field (ElementBody.title body) with
  | Some id, Some type, Some title =>
      let element :=
        {| Element.id := id;
           Element.type := type;
           Element.title := title;
           Element.options := default [] (ElementBody.options body);
           Element.createdAt := now |} in
      let elements := elements_set (presentationElements st) id element in
      ({| currentSlide := currentSlide st;
          presentationElements := elements;
          responses := responses st |},
       Json {| ElementSaved.success := true;
               ElementSaved.message := "Element saved successfully";
               ElementSaved.element := elements_get elements id |})
  | _, _, _ => (st, Status 400 "Missing required fields")
  end.

(** [GET /api/elements] (lines 107-109): the own properties are what
    [res.json] serialises. *)
Definition get_api_elements (st : Store) : Reply (gmap string Element.t) :=
  Json (own (presentationElements st)).

(** [GET /api/elements/:id] (lines 114-123) *)
Definition get_api_elements_id (st : Store) (id : string) : Reply JsVal :=
  let element := elements_get (presentationElements st) id in
  if negb (truthy element) then Status 404 "Element not found"
  else Json element.

(** [DELETE /api/elements/:id] (lines 128-144) *)
Definition delete_api_elements_id (st : Store) (id : string)
  : Store * Reply Ack.t :=
  if negb (truthy (elements_get (presentationElements st) id)) then
    (st, Status 404 "Element not found")
  else
    ({| currentSlide := currentSlide st;
        presentationElements := elements_delete (presentationElements st) id;
        responses := delete id (responses st) |},
     Json {| Ack.success := true;
             Ack.message := "Element deleted successfully" |}).

(** [POST /api/responses] (lines 149-181).  [push] exists on arrays only:
    on any other value the call throws, after the guard of line 157 has
    run. *)
Definition post_api_responses (st : Store) (now : Z) (body : ResponseBody.t)
  : Store * Reply ResponseRecorded.t :=
  match field (ResponseBody.elementId body), field (ResponseBody.user body) with
  | Some elementId, Some user =>
      let responses1 :=
        if negb (truthy_responses (responses_get (responses st) elementId))
        then <[elementId := []]> (responses st)
        else responses st in
      let responseData :=
        {| Response.user := user;
           Response.timestamp := now;
           Response.response := ResponseBody.response body;
           Response.option := ResponseBody.option body;
           Response.optionText := ResponseBody.optionText body |} in
      match responses_get responses1 elementId with
      | RArray l =>
          let responses2 := <[elementId := (l ++ [responseData])%list]> responses1 in
          ({| currentSlide := currentSlide st;
              presentationElements := presentationElements st;
              responses := responses2 |},
           Json {| ResponseRecorded.success := true;
                   ResponseRecorded.message := "Response recorded successfully";
                   ResponseRecorded.responseCount :=
                     js_length (responses_get responses2 elementId) |})
      | _ =>
          ({| currentSlide := currentSlide st;
              presentationElements := presentationElements st;
              responses := responses1 |},
           Thrown)
      end
  | _, _ => (st, Status 400 "Missing required fields")
  end.

(** [GET /api/responses/:elementId] (lines 186-195) *)
Definition get_api_responses_elementId (st : Store) (elementId : string)
  : Reply ResponseList.t :=
  let elementResponses := or_empty (responses_get (responses st) elementId) in
  Json {| ResponseList.elementId := elementId;
          ResponseList.responses := elementResponses;
          ResponseList.count := js_length elementResponses |}.

(** [r.option === index] (line 230) *)
Definition option_is (index : nat) (r : Response.t) : bool :=
  match Response.option r with
  | Some z => (z =? Z.of_nat index)%Z
  | None => false
  end.

(** The body of the [forEach] callback (lines 230-237), for an array of
    responses. *)
Definition option_result (elementResponses : list Response.t)
    (index : nat) (option : string) : OptionResult.t :=
  let count := length (List.filter (option_is index) elementResponses) in
  {| OptionResult.text := option;
     OptionResult.count := count;
     OptionResult.percentage := percentage_of count (length elementResponses) |}.

(** [element.options.forEach(...)] (lines 229-238): the callback runs once
    per option, and its [filter] call throws unless [elementResponses] is
    an array. *)
Definition choice_options (options : list string) (elementResponses : ResponsesVal)
  : option (list OptionResult.t) :=
  match options, elementResponses with
  | [], _ => Some []
  | _, RArray l => Some (imap (option_result l) options)
  | _, _ => None
  end.

(** The callback of [map] (lines 215-219). *)
Definition text_entry (r : Response.t) : TextEntry.t :=
  {| TextEntry.user := Response.user r;
     TextEntry.response := Response.response r;
     TextEntry.timestamp := Response.timestamp r |}.

(** [GET /api/results/:elementId] (lines 200-247).  Reading [type] off a
    value that is not an element gives [undefined]; reading [options] off
    it gives [undefined] too, on which [forEach] throws. *)
Definition get_api_results_elementId (st : Store) (now : Z) (elementId : string)
  : Reply ResultsBody.t :=
  let element := elements_get (presentationElements st) elementId in
  let elementResponses := or_empty (responses_get (responses st) elementId) in
  if negb (truthy element) then Status 404 "Element not found"
  else
    match element with
    | VElement e =>
        if String.eqb (Element.type e) "question" then
          match elementResponses with
          | RArray l =>
              Json {| ResultsBody.elementId := elementId;
                      ResultsBody.element := e;
                      ResultsBody.results :=
                        Text (map text_entry l);
                      ResultsBody.timestamp := now |}
          | _ => Thrown
          end
        else
          match choice_options (Element.options e) elementResponses with
          | Some options =>
              Json {| ResultsBody.elementId := elementId;
                      ResultsBody.element := e;
                      ResultsBody.results :=
                        Choice options (js_length elementResponses);
                      ResultsBody.timestamp := now |}
          | None => Thrown
          end
    | _ => Thrown
    end.

(** The admin key of lines 33 and 255. *)
Definition admin_key : string := "twoleftfeet2024".

(** [DELETE /api/responses] (lines 252-267) *)
Definition delete_api_responses (st : Store) (adminKey : option string)
  : Store * Reply Ack.t :=
  if decide (adminKey = Some admin_key) then
    ({| currentSlide := currentSlide st;
        presentationElements := presentationElements st;
        responses := ∅ |},
     Json {| Ack.success := true; Ack.message := "All responses cleared" |})
  else (st, Status 401 "Unauthorized").

(** [GET /api/health] (lines 272-281).  [Object.keys] and [Object.values]
    list own properties; the [reduce] is a left fold, and its sum does not
    depend on the order of the values. *)
Definition get_api_health (st : Store) (uptime : float) (now : Z)
  : Reply Health.t :=
  Json {| Health.status := "healthy";
          Health.uptime := uptime;
          Health.timestamp := now;
          Health.currentSlide := currentSlide st;
          Health.elementsCount := size (own (presentationElements st));
          Health.responsesCount :=
            foldl (fun total arr => total + length arr) 0
                  (map snd (map_to_list (responses st))) |}.

(** ** Requests as steps of the server *)

Inductive Request : Type :=
  | GetApiSync (now : Z) (slideName : option string)
  | GetApiCurrentSlide (now : Z)
  | PostApiElements (now : Z) (body : ElementBody.t)
  | GetApiElements
  | GetApiElementsId (id : string)
  | DeleteApiElementsId (id : string)
  | PostApiResponses (now : Z) (body : ResponseBody.t)
  | GetApiResponsesElementId (elementId : string)
  | GetApiResultsElementId (now : Z) (elementId : string)
  | DeleteApiResponses (adminKey : option string)
  | GetApiHealth (uptime : float) (now : Z).

(** The store a request leaves behind; the [GET] routes other than
    [/api/sync] assign nothing. *)
Definition next (st : Store) (r : Request) : Store :=
  match r with
  | GetApiSync now slideName => fst (get_api_sync st now slideName)
  | PostApiElements now body => fst (post_api_elements st now body)
  | DeleteApiElementsId id => fst (delete_api_elements_id st id)
  | PostApiResponses now body => fst (post_api_responses st now body)
  | DeleteApiResponses adminKey => fst (delete_api_responses st adminKey)
  | _ => st
  end.

Inductive reachable : Store → Prop :=
  | reachable_init : reachable init
  | reachable_next st r : reachable st → reachable (next st r).

(** ** Notions used in the statements *)

(** A key is plain when [Object.prototype] has no property of that name,
    so that a read of the key sees own properties only. *)
Definition plain (k : string) : Prop := responses_inherited k = RUndefined.

(** The property names of [Object.prototype]. *)
Definition object_prototype_names : list string :=
  "__proto__" :: object_prototype_methods.*1.

(** An id is unshadowed in a store when a read of [presentationElements]
    at that id finds nothing past the own properties. *)
Definition unshadowed (st : Store) (id : string) : Prop :=
  elements_inherited (presentationElements st) id = VUndefined.

(** The responses recorded under a key: the own property, if any. *)
Definition recorded (st : Store) (k : string) : list Response.t :=
  default [] (responses st !! k).

(** The shape every reachable store has: ["__proto__"] is never an own
    property of [presentationElements], and the own properties of
    [responses] have plain keys. *)
Record wf (st : Store) : Prop := mk_wf
  { wf_elements : own (presentationElements st) !! "__proto__" = None;
    wf_responses : ∀ k, is_Some (responses st !! k) → plain k }.

(** A required field is missing when it is absent or the empty string. *)
Definition missing (f : option string) : Prop := f = None ∨ f = Some "".

(** A run of slide changes: [GET /api/sync?slideName=name] at time [now],
    one call after the other. *)
Definition set_slides (st : Store) (calls : list (Z * string)) : Store :=
  foldl (fun st c => fst (get_api_sync st c.1 (Some c.2))) st calls.

(** Whether a request is a call of [GET /api/sync]. *)
Definition is_slide_change (r : Request) : bool :=
  match r with
  | GetApiSync _ _ => true
  | _ => false
  end.

(** What lines 209-239 compute from an element and an array of responses. *)
Definition results_of (e : Element.t) (l : list Response.t) : Results :=
  if String.eqb (Element.type e) "question" then Text (map text_entry l)
  else Choice (imap (option_result l) (Element.options e)) (Some (length l)).

(** The sum, over the keys of the response store, of the number of
    responses recorded under the key. *)
Definition total_recorded (st : Store) : nat :=
  sum_list_with (fun k => length (recorded st k)) (elements (dom (responses st))).

(** The number of responses of [l] whose option equals the index [i]. *)
Definition votes_for (i : nat) (l : list Response.t) : nat :=
  length (filter (fun r => Response.option r = Some (Z.of_nat i)) l).

(** A response carries a valid option for an element with [n] options when
    its option is one of the indices [0 .. n-1]. *)
Definition valid_option (n : nat) (r : Response.t) : Prop :=
  ∃ i, (i < n)%nat ∧ Response.option r = Some (Z.of_nat i).

(** [valid_option], decided. *)
Definition in_range (n : nat) (r : Response.t) : bool :=
  match Response.option r with
  | Some z => (0 <=? z)%Z && (z <? Z.of_nat n)%Z
  | None => false
  end.

(** The sum of the per-option counts of a choice result. *)
Definition sum_counts (options : list OptionResult.t) : nat :=
  sum_list_with OptionResult.count options.

(** ** Stores and requests used in the examples *)

(** The poll of the specification's scenario: [id = p1], options A and B. *)
Definition poll_p1 : ElementBody.t :=
  {| ElementBody.id := Some "p1";
     ElementBody.type := Some "poll";
     ElementBody.title := Some "Pick one";
     ElementBody.options := Some ["A"; "B"] |}.

(** A second definition of [p1]: another type and title, no options. *)
Definition vote_p1 : ElementBody.t :=
  {| ElementBody.id := Some "p1";
     ElementBody.type := Some "vote";
     ElementBody.title := Some "Pick again";
     ElementBody.options := None |}.

(** A later definition of [p1] with a third option. *)
Definition poll_p1_abc : ElementBody.t :=
  {| ElementBody.id := Some "p1";
     ElementBody.type := Some "poll";
     ElementBody.title := Some "Pick one of three";
     ElementBody.options := Some ["A"; "B"; "C"] |}.

(** A poll saved under the id ["constructor"], with no options. *)
Definition constructor_poll : ElementBody.t :=
  {| ElementBody.id := Some "constructor";
     ElementBody.type := Some "poll";
     ElementBody.title := Some "Pick one";
     ElementBody.options := None |}.

(** A poll saved under the id ["__proto__"]. *)
Definition proto_poll : ElementBody.t :=
  {| ElementBody.id := Some "__proto__";
     ElementBody.type := Some "poll";
     ElementBody.title := Some "Pick one";
     ElementBody.options := None |}.

(** A response body that carries an option index and nothing else. *)
Definition vote (elementId user : string) (option : Z) : ResponseBody.t :=
  {| ResponseBody.elementId := Some elementId;
     ResponseBody.user := Some user;
     ResponseBody.response := None;
     ResponseBody.option := Some option;
     ResponseBody.optionText := None |}.

(** A free-text answer. *)
Definition answer (elementId user text : string) : ResponseBody.t :=
  {| ResponseBody.elementId := Some elementId;
     ResponseBody.user := Some user;
     ResponseBody.response := Some text;
     ResponseBody.option := None;
     ResponseBody.optionText := None |}.

(** The scenario: the poll is saved, then u1, u2 and u3 answer 0, 1, 0. *)
Definition scenario_requests : list Request :=
  [ PostApiElements 1000 poll_p1;
    PostApiResponses 1001 (vote "p1" "u1" 0);
    PostApiResponses 1002 (vote "p1" "u2" 1);
    PostApiResponses 1003 (vote "p1" "u3" 0) ].

Definition scenario_store : Store := foldl next init scenario_requests.

(** Eighty answers to the poll [p1]: 23 for option 0, then 57 for option 1. *)
Definition eighty_requests : list Request :=
  PostApiElements 1000 poll_p1
  :: replicate 23 (PostApiResponses 1001 (vote "p1" "u" 0))
  ++ replicate 57 (PostApiResponses 1002 (vote "p1" "u" 1)).

Definition eighty_store : Store := foldl next init eighty_requests.

(** Three slide changes in a row. *)
Definition three_slides : list (Z * string) :=
  [ (1000, "Slide1"); (2000, "Slide2"); (3000, "Slide3") ]%Z.

(** ** The admin route, outcomes of requests and shapes of stored data *)

(** The reply of [GET /admin]: a redirect, or a status with an error. *)
Inductive AdminReply : Type :=
  | Redirect (location : string)
  | Refused (code : Z) (error : string).

(** [GET /admin] (lines 31-38) *)
Definition get_admin (adminKey : option string) : AdminReply :=
  if decide (adminKey = Some "twoleftfeet2024") then
    Redirect "/?admin=twoleftfeet2024"
  else Refused 401 "Unauthorized access".

(** Whether a reply is a body sent by [res.json] with status 200. *)
Definition succeeded {A} (r : Reply A) : bool :=
  match r with
  | Json _ => true
  | _ => false
  end.

(** Whether the handler of a request answers with success. *)
Definition outcome (st : Store) (r : Request) : bool :=
  match r with
  | GetApiSync now slideName => succeeded (snd (get_api_sync st now slideName))
  | GetApiCurrentSlide now => succeeded (get_api_current_slide st now)
  | PostApiElements now body => succeeded (snd (post_api_elements st now body))
  | GetApiElements => succeeded (get_api_elements st)
  | GetApiElementsId id => succeeded (get_api_elements_id st id)
  | DeleteApiElementsId id => succeeded (snd (delete_api_elements_id st id))
  | PostApiResponses now body => succeeded (snd (post_api_responses st now body))
  | GetApiResponsesElementId elementId =>
      succeeded (get_api_responses_elementId st elementId)
  | GetApiResultsElementId now elementId =>
      succeeded (get_api_results_elementId st now elementId)
  | DeleteApiResponses adminKey => succeeded (snd (delete_api_responses st adminKey))
  | GetApiHealth uptime now => succeeded (get_api_health st uptime now)
  end.

(** An element stored under the key [k] is well keyed when it carries [k]
    as its id and its three required fields are non-empty. *)
Definition well_keyed (k : string) (e : Element.t) : Prop :=
  Element.id e = k ∧ k ≠ "" ∧ Element.type e ≠ "" ∧ Element.title e ≠ "".

(** Every element of the store, own property or prototype, is well keyed. *)
Record elements_ok (st : Store) : Prop := mk_elements_ok
  { own_keyed :
      ∀ k e, own (presentationElements st) !! k = Some e → well_keyed k e;
    proto_keyed :
      ∀ p, proto (presentationElements st) = Some p → well_keyed "__proto__" p }.

(** Every array of the response store has a non-empty key, holds at least
    one response, and holds only responses with a non-empty user. *)
Definition responses_ok (st : Store) : Prop :=
  ∀ k l, responses st !! k = Some l →
         k ≠ "" ∧ l ≠ [] ∧ Forall (fun r => Response.user r ≠ "") l.

(** Whether a request can write the responses recorded under the key [k]:
    a submission for [k], the deletion of the element [k], or a clear. *)
Definition writes_responses_of (k : string) (r : Request) : bool :=
  match r with
  | PostApiResponses _ body =>
      bool_decide (ResponseBody.elementId body = Some k)
  | DeleteApiElementsId id => bool_decide (id = k)
  | DeleteApiResponses _ => true
  | _ => false
  end.

(** A question saved under [q1], and the store that holds it. *)
Definition question_q1 : ElementBody.t :=
  {| ElementBody.id := Some "q1";
     ElementBody.type := Some "question";
     ElementBody.title := Some "Any remarks?";
     ElementBody.options := None |}.

Definition question_store : Store :=
  foldl next init
    [ PostApiElements 1000 question_q1;
      PostApiResponses 1001 (answer "q1" "u1" "first") ].

(** The scenario with the first two answers arriving in the other order. *)
Definition reordered_store : Store :=
  foldl next init
    [ PostApiElements 1000 poll_p1;
      PostApiResponses 1002 (vote "p1" "u2" 1);
      PostApiResponses 1001 (vote "p1" "u1" 0);
      PostApiResponses 1003 (vote "p1" "u3" 0) ].

(** A run of calls of [GET /api/sync], each with the time of the call and
    the [slideName] parameter as it arrived, present or not. *)
Definition sync_all (st : Store) (calls : list (Z * option string)) : Store :=
  foldl (fun st c => fst (get_api_sync st c.1 c.2)) st calls.

(** The last non-empty slide name among the calls, if there is one. *)
Definition last_slide (calls : list (Z * option string)) : option string :=
  last (omap (fun c => field c.2) calls).

(** ** Basic facts *)

Lemma field_Some f s : f = Some s → s ≠ "" → field f = Some s.
Proof.
  intros -> Hs. unfold field.
  destruct (String.eqb_spec s ""); [contradiction | reflexivity].
Qed.

Lemma field_None f : f = None ∨ f = Some "" → field f = None.
Proof. by intros [-> | ->]. Qed.

Lemma assoc_None k l : assoc k l = None ↔ k ∉ l.*1.
Proof.
  induction l as [|[k' n] l IH]; simpl.
  - split; [intros _; apply not_elem_of_nil | done].
  - rewrite not_elem_of_cons. destruct (String.eqb_spec k k') as [-> | Hk].
    + split; [done | by intros [? _]].
    + rewrite IH. tauto.
Qed.

Lemma plain_iff k : plain k ↔ k ∉ object_prototype_names.
Proof.
  unfold plain, responses_inherited, object_prototype_names.
  rewrite not_elem_of_cons, <- assoc_None.
  destruct (String.eqb_spec k "__proto__") as [-> | Hk].
  - split; [done | by intros [? _]].
  - destruct (assoc k object_prototype_methods); split; try done.
    by intros [_ ?].
Qed.

Lemma responses_get_plain m k :
  plain k → responses_get m k = match m !! k with
                                | Some l => RArray l
                                | None => RUndefined
                                end.
Proof. intros Hk. unfold responses_get. by rewrite Hk. Qed.

Lemma or_empty_recorded st k :
  plain k → or_empty (responses_get (responses st) k) = RArray (recorded st k).
Proof.
  intros Hk. rewrite responses_get_plain by done. unfold recorded.
  by destruct (responses st !! k).
Qed.

Lemma elements_get_set_ne o k e : k ≠ "__proto__" →
  elements_get (elements_set o k e) k = VElement e.
Proof.
  intros Hk. unfold elements_get, elements_set.
  destruct (String.eqb_spec k "__proto__"); [done|].
  simpl. by rewrite lookup_insert_eq.
Qed.

Lemma elements_get_set_proto o e :
  own o !! "__proto__" = None →
  elements_get (elements_set o "__proto__" e) "__proto__" = VElement e.
Proof. intros Ho. unfold elements_get, elements_set. simpl. by rewrite Ho. Qed.

Lemma elements_get_set o k e :
  own o !! "__proto__" = None → elements_get (elements_set o k e) k = VElement e.
Proof.
  intros Ho. destruct (decide (k = "__proto__")) as [-> | Hk].
  - by apply elements_get_set_proto.
  - by apply elements_get_set_ne.
Qed.

Lemma set_slides_snoc st calls now name :
  set_slides st (calls ++ [(now, name)])
  = fst (get_api_sync (set_slides st calls) now (Some name)).
Proof. unfold set_slides. by rewrite foldl_app. Qed.

Lemma get_api_sync_stores st now name :
  name ≠ "" →
  get_api_sync st now (Some name)
  = ({| currentSlide := name;
        presentationElements := presentationElements st;
        responses := responses st |},
     Json {| SyncAck.success := true;
             SyncAck.message := "Slide updated to: " +:+ name;
             SyncAck.timestamp := now |}).
Proof. intros Hn. unfold get_api_sync. by rewrite (field_Some _ name). Qed.

(** ** The shape of reachable stores *)

Lemma wf_init : wf init.
Proof.
  split; simpl.
  - apply lookup_empty.
  - intros k [l Hl]. by rewrite lookup_empty in Hl.
Qed.

Lemma wf_post_api_elements st now body :
  wf st → wf (fst (post_api_elements st now body)).
Proof.
  intros [He Hr]. unfold post_api_elements.
  destruct (field (ElementBody.id body)) as [id|]; [|by split].
  destruct (field (ElementBody.type body)) as [type|]; [|by split].
  destruct (field (ElementBody.title body)) as [title|]; [|by split].
  split; simpl; [|done].
  unfold elements_set. destruct (String.eqb_spec id "__proto__"); simpl.
  - done.
  - by rewrite lookup_insert_ne.
Qed.

Lemma wf_delete_api_elements_id st id :
  wf st → wf (fst (delete_api_elements_id st id)).
Proof.
  intros [He Hr]. unfold delete_api_elements_id.
  destruct (negb _); [by split|]. split; simpl.
  - rewrite lookup_delete. by case_decide.
  - intros k [l Hl]. apply Hr. rewrite lookup_delete in Hl.
    case_decide; [done | by exists l].
Qed.

Lemma responses_inherited_falsy k :
  truthy_responses (responses_inherited k) = false → plain k.
Proof.
  unfold plain, responses_inherited.
  destruct (String.eqb k "__proto__"); [done|].
  by destruct (assoc k object_prototype_methods).
Qed.

Lemma responses_inherited_no_array k l : responses_inherited k ≠ RArray l.
Proof.
  unfold responses_inherited.
  destruct (String.eqb k "__proto__"); [done|].
  by destruct (assoc k object_prototype_methods).
Qed.

Lemma wf_post_api_responses st now body :
  wf st → wf (fst (post_api_responses st now body)).
Proof.
  intros [He Hr]. unfold post_api_responses.
  destruct (field (ResponseBody.elementId body)) as [elementId|]; [|by split].
  destruct (field (ResponseBody.user body)) as [user|]; [|by split].
  set (responses1 := if negb _ then _ else _).
  assert (∀ k, is_Some (responses1 !! k) → plain k) as Hr1.
  { intros k. unfold responses1.
    destruct (truthy_responses (responses_get (responses st) elementId)) eqn:Ht; simpl.
    - apply Hr.
    - rewrite lookup_insert. case_decide as Hk; [|apply Hr].
      subst k. intros _. unfold responses_get in Ht.
      destruct (responses st !! elementId); [done|].
      by apply responses_inherited_falsy. }
  destruct (responses_get responses1 elementId) eqn:Hget; try by split.
  split; simpl; [done|].
  intros k. rewrite lookup_insert. case_decide as Hk; [|apply Hr1].
  subst k. intros _. apply Hr1. unfold responses_get in Hget.
  destruct (responses1 !! elementId) eqn:Hl; [by eexists|].
  by apply responses_inherited_no_array in Hget.
Qed.

Lemma wf_next st r : wf st → wf (next st r).
Proof.
  intros Hwf. destruct r; simpl; try done.
  - unfold get_api_sync. destruct (field slideName); [|done].
    destruct Hwf. by split.
  - by apply wf_post_api_elements.
  - by apply wf_delete_api_elements_id.
  - by apply wf_post_api_responses.
  - unfold delete_api_responses. case_decide; [|done].
    destruct Hwf. split; simpl; [done|].
    intros k [l Hl]. by rewrite lookup_empty in Hl.
Qed.

Lemma reachable_wf st : reachable st → wf st.
Proof. induction 1; [apply wf_init | by apply wf_next]. Qed.

Lemma reachable_foldl st rs : reachable st → reachable (foldl next st rs).
Proof.
  revert st. induction rs as [|r rs IH]; intros st Hst; simpl; [done|].
  apply IH. by constructor.
Qed.

Lemma scenario_store_reachable : reachable scenario_store.
Proof. apply reachable_foldl. constructor. Qed.

(** ** Slide state *)

Lemma next_keeps_currentSlide st r :
  is_slide_change r = false → currentSlide (next st r) = currentSlide st.
Proof.
  destruct r; simpl; try done; intros _.
  - unfold post_api_elements.
    by destruct (field (ElementBody.id body)), (field (ElementBody.type body)),
      (field (ElementBody.title body)).
  - unfold delete_api_elements_id. by destruct (negb _).
  - unfold post_api_responses.
    destruct (field _); [|done]. destruct (field _); [|done].
    by destruct (responses_get _ _).
  - unfold delete_api_responses. by case_decide.
Qed.

Lemma foldl_next_keeps_currentSlide st rs :
  Forall (fun r => is_slide_change r = false) rs →
  currentSlide (foldl next st rs) = currentSlide st.
Proof.
  intros Hrs. revert st.
  induction Hrs as [|r rs Hr _ IH]; intros st; simpl; [done|].
  by rewrite IH, next_keeps_currentSlide.
Qed.

(** C6. After the calls [setSlide(name_1)], ..., [setSlide(name_N)] with
    non-empty names, run from any store, [getSlide()] returns the N-th
    name: the value read after a prefix of the calls is the name of the
    last call of that prefix. *)
Theorem current_slide_after_nth_call
    (st : Store) (calls : list (Z * string)) (n : nat) (t now : Z) (name : string) :
  Forall (fun c => c.2 ≠ "") calls →
  calls !! n = Some (t, name) →
  get_api_current_slide (set_slides st (take (S n) calls)) now
  = Json {| CurrentSlide.currentSlide := name; CurrentSlide.timestamp := now |}.
Proof.
  intros Hvalid Hn.
  rewrite (take_S_r _ _ _ Hn), set_slides_snoc.
  rewrite get_api_sync_stores.
  - reflexivity.
  - apply (Forall_lookup_1 _ _ _ _ Hvalid Hn).
Qed.

Lemma current_slide_after_nth_call_witness :
  Forall (fun c : Z * string => c.2 ≠ "") three_slides ∧
  get_api_current_slide (set_slides init three_slides) 3001
  = Json {| CurrentSlide.currentSlide := "Slide3";
            CurrentSlide.timestamp := 3001 |}.
Proof.
  assert (Forall (fun c : Z * string => c.2 ≠ "") three_slides) as Hvalid
    by (repeat constructor; discriminate).
  split; [exact Hvalid|].
  exact (current_slide_after_nth_call init three_slides 2 3000 3001 "Slide3"
           Hvalid eq_refl).
Defined.

(** C7, as the code has it.  The store keeps the slide name and no time of
    update: [setSlide(name)] at time [now] writes [currentSlide] only and
    reports [now] in its own acknowledgement.  Every [getSlide()] made
    before the next slide change, whatever other requests come in between,
    returns that name together with the time of the read itself. *)
Theorem current_slide_carries_read_time
    (st : Store) (now : Z) (name : string) (between : list Request) (read : Z) :
  name ≠ "" →
  Forall (fun r => is_slide_change r = false) between →
  get_api_sync st now (Some name)
  = ({| currentSlide := name;
        presentationElements := presentationElements st;
        responses := responses st |},
     Json {| SyncAck.success := true;
             SyncAck.message := "Slide updated to: " +:+ name;
             SyncAck.timestamp := now |}) ∧
  get_api_current_slide
    (foldl next (fst (get_api_sync st now (Some name))) between) read
  = Json {| CurrentSlide.currentSlide := name; CurrentSlide.timestamp := read |}.
Proof.
  intros Hname Hbetween. rewrite get_api_sync_stores by done.
  split; [reflexivity|]. unfold get_api_current_slide.
  by rewrite foldl_next_keeps_currentSlide.
Qed.

Lemma current_slide_carries_read_time_witness :
  get_api_current_slide
    (foldl next (fst (get_api_sync init 1000 (Some "Slide3")))
       [PostApiElements 1500 poll_p1; GetApiCurrentSlide 1600]) 2000
  = Json {| CurrentSlide.currentSlide := "Slide3";
            CurrentSlide.timestamp := 2000 |}.
Proof.
  refine (proj2 (current_slide_carries_read_time init 1000 "Slide3"
                   [PostApiElements 1500 poll_p1; GetApiCurrentSlide 1600]
                   2000 _ _)).
  - discriminate.
  - repeat constructor.
Defined.

(** C7 as stated fails: after [setSlide("Slide3")] at time 1000, two reads
    with no slide change between them, at times 2000 and 3000, return two
    different timestamps, neither of them the time of the write. *)
Lemma current_slide_timestamp_not_stable :
  let st := fst (get_api_sync init 1000 (Some "Slide3")) in
  get_api_current_slide st 2000
  = Json {| CurrentSlide.currentSlide := "Slide3";
            CurrentSlide.timestamp := 2000 |} ∧
  get_api_current_slide st 3000
  = Json {| CurrentSlide.currentSlide := "Slide3";
            CurrentSlide.timestamp := 3000 |} ∧
  (2000 ≠ 3000)%Z ∧ (2000 ≠ 1000)%Z ∧ (3000 ≠ 1000)%Z.
Proof. simpl. repeat split; discriminate. Qed.

(** ** Clearing responses *)

(** C5. [clearAllResponses] with anything but the admin key answers 401
    (UnauthorizedError) and hands back the store unchanged, so the
    responses recorded under every element id are the ones recorded before
    the call. *)
Theorem clear_without_key_keeps_responses (st : Store) (adminKey : option string) :
  adminKey ≠ Some admin_key →
  delete_api_responses st adminKey = (st, Status UnauthorizedError "Unauthorized") ∧
  ∀ elementId,
    responses (fst (delete_api_responses st adminKey)) !! elementId
    = responses st !! elementId.
Proof.
  intros Hkey. unfold delete_api_responses.
  case_decide; [contradiction|]. by split.
Qed.

Lemma clear_without_key_keeps_responses_witness :
  Some "letmein" ≠ Some admin_key ∧
  delete_api_responses scenario_store (Some "letmein")
  = (scenario_store, Status 401 "Unauthorized") ∧
  length (recorded (fst (delete_api_responses scenario_store (Some "letmein"))) "p1")
  = 3.
Proof.
  assert (Some "letmein" ≠ Some admin_key) as Hkey by discriminate.
  split; [exact Hkey|].
  destruct (clear_without_key_keeps_responses scenario_store (Some "letmein") Hkey)
    as [Hsame Hall].
  split; [exact Hsame|].
  unfold recorded. rewrite Hall. reflexivity.
Defined.

(** ** Results of an element whose responses are an array *)

Lemma choice_options_array options l :
  choice_options options (RArray l) = Some (imap (option_result l) options).
Proof. by destruct options. Qed.

Lemma get_api_results_array st now elementId e l :
  elements_get (presentationElements st) elementId = VElement e →
  or_empty (responses_get (responses st) elementId) = RArray l →
  get_api_results_elementId st now elementId
  = Json {| ResultsBody.elementId := elementId;
            ResultsBody.element := e;
            ResultsBody.results := results_of e l;
            ResultsBody.timestamp := now |}.
Proof.
  intros He Hl. unfold get_api_results_elementId, results_of.
  rewrite He, Hl. simpl.
  destruct (String.eqb (Element.type e) "question"); [done|].
  by rewrite choice_options_array.
Qed.

Lemma or_empty_own m k l :
  m !! k = Some l → or_empty (responses_get m k) = RArray l.
Proof. intros Hl. unfold responses_get. by rewrite Hl. Qed.

(** ** Saving elements *)

Lemma post_api_elements_missing st now body :
  missing (ElementBody.id body) ∨ missing (ElementBody.type body)
  ∨ missing (ElementBody.title body) →
  post_api_elements st now body = (st, Status 400 "Missing required fields").
Proof.
  unfold post_api_elements.
  intros [H | [H | H]]; rewrite (field_None _ H).
  - done.
  - by destruct (field (ElementBody.id body)).
  - by destruct (field (ElementBody.id body)), (field (ElementBody.type body)).
Qed.

Lemma post_api_elements_saves st now body id type title :
  ElementBody.id body = Some id → id ≠ "" →
  ElementBody.type body = Some type → type ≠ "" →
  ElementBody.title body = Some title → title ≠ "" →
  let element :=
    {| Element.id := id; Element.type := type; Element.title := title;
       Element.options := default [] (ElementBody.options body);
       Element.createdAt := now |} in
  let elements := elements_set (presentationElements st) id element in
  post_api_elements st now body
  = ({| currentSlide := currentSlide st;
        presentationElements := elements;
        responses := responses st |},
     Json {| ElementSaved.success := true;
             ElementSaved.message := "Element saved successfully";
             ElementSaved.element := elements_get elements id |}).
Proof.
  intros Hid Hid' Hty Hty' Hti Hti'. unfold post_api_elements.
  by rewrite (field_Some _ _ Hid Hid'), (field_Some _ _ Hty Hty'),
    (field_Some _ _ Hti Hti').
Qed.

Lemma post_api_elements_frame st now body :
  responses (fst (post_api_elements st now body)) = responses st ∧
  currentSlide (fst (post_api_elements st now body)) = currentSlide st.
Proof.
  unfold post_api_elements.
  by destruct (field (ElementBody.id body)), (field (ElementBody.type body)),
    (field (ElementBody.title body)).
Qed.

(** C8. [create(id, type, title, options)] answers 400 (ValidationError)
    and changes nothing when [id], [type] or [title] is missing or empty.
    When all three are non-empty it succeeds in every store the server can
    reach, also when an element with that id exists already, and [get(id)]
    afterwards returns the definition just supplied. *)
Theorem create_validates_then_upserts (st : Store) (now : Z) (body : ElementBody.t) :
  reachable st →
  (missing (ElementBody.id body) ∨ missing (ElementBody.type body)
   ∨ missing (ElementBody.title body) →
   post_api_elements st now body
   = (st, Status ValidationError "Missing required fields")) ∧
  (∀ id type title,
     ElementBody.id body = Some id → id ≠ "" →
     ElementBody.type body = Some type → type ≠ "" →
     ElementBody.title body = Some title → title ≠ "" →
     let element :=
       {| Element.id := id; Element.type := type; Element.title := title;
          Element.options := default [] (ElementBody.options body);
          Element.createdAt := now |} in
     snd (post_api_elements st now body)
     = Json {| ElementSaved.success := true;
               ElementSaved.message := "Element saved successfully";
               ElementSaved.element := VElement element |} ∧
     get_api_elements_id (fst (post_api_elements st now body)) id
     = Json (VElement element)).
Proof.
  intros Hst. destruct (reachable_wf st Hst) as [Hwf _].
  split; [apply post_api_elements_missing|].
  intros id type title Hid Hid' Hty Hty' Hti Hti' element.
  rewrite (post_api_elements_saves st now body id type title) by done.
  simpl. unfold get_api_elements_id. simpl.
  by rewrite elements_get_set.
Qed.

Lemma create_validates_then_upserts_witness :
  reachable scenario_store ∧
  get_api_elements_id scenario_store "p1"
  = Json (VElement {| Element.id := "p1"; Element.type := "poll";
                      Element.title := "Pick one"; Element.options := ["A"; "B"];
                      Element.createdAt := 1000 |}) ∧
  get_api_elements_id (fst (post_api_elements scenario_store 2000 vote_p1)) "p1"
  = Json (VElement {| Element.id := "p1"; Element.type := "vote";
                      Element.title := "Pick again"; Element.options := [];
                      Element.createdAt := 2000 |}).
Proof.
  assert (reachable scenario_store) as Hwf by exact scenario_store_reachable.
  split; [exact Hwf|]. split; [reflexivity|].
  refine (proj2 (proj2 (create_validates_then_upserts scenario_store 2000 vote_p1 Hwf)
                   "p1" "vote" "Pick again" eq_refl _ eq_refl _ eq_refl _));
    discriminate.
Defined.

(** C10. Saving an element, whether the id is new or taken, assigns
    neither [responses] nor [currentSlide]: the response sequence of every
    id, as [listResponses] reports it, is the one before the call, and an
    aggregation made afterwards for an id with recorded responses is
    computed from exactly those responses. *)
Theorem upsert_leaves_responses (st : Store) (now : Z) (body : ElementBody.t) :
  let st' := fst (post_api_elements st now body) in
  responses st' = responses st ∧
  currentSlide st' = currentSlide st ∧
  (∀ elementId,
     get_api_responses_elementId st' elementId
     = get_api_responses_elementId st elementId) ∧
  (∀ elementId e l later,
     responses st !! elementId = Some l →
     elements_get (presentationElements st') elementId = VElement e →
     get_api_results_elementId st' later elementId
     = Json {| ResultsBody.elementId := elementId;
               ResultsBody.element := e;
               ResultsBody.results := results_of e l;
               ResultsBody.timestamp := later |}).
Proof.
  intros st'. destruct (post_api_elements_frame st now body) as [Hr Hs].
  fold st' in Hr, Hs. repeat split; [done | done | |].
  - intros elementId. unfold get_api_responses_elementId. by rewrite Hr.
  - intros elementId e l later Hl He.
    apply get_api_results_array; [done|].
    rewrite Hr. by apply or_empty_own.
Qed.

Lemma upsert_leaves_responses_witness :
  let st' := fst (post_api_elements scenario_store 2000 poll_p1_abc) in
  let e :=
    {| Element.id := "p1"; Element.type := "poll";
       Element.title := "Pick one of three";
       Element.options := ["A"; "B"; "C"]; Element.createdAt := 2000 |} in
  length (recorded st' "p1") = 3 ∧
  get_api_results_elementId st' 2001 "p1"
  = Json {| ResultsBody.elementId := "p1";
            ResultsBody.element := e;
            ResultsBody.results := results_of e (recorded scenario_store "p1");
            ResultsBody.timestamp := 2001 |}.
Proof.
  intros st' e.
  destruct (upsert_leaves_responses scenario_store 2000 poll_p1_abc)
    as (Hr & _ & _ & Hagg).
  fold st' in Hr, Hagg. split.
  - unfold recorded. rewrite Hr. reflexivity.
  - exact (Hagg "p1" e (recorded scenario_store "p1") 2001%Z eq_refl eq_refl).
Defined.

(** ** Health *)

Lemma foldl_add_length (ls : list (list Response.t)) (a : nat) :
  foldl (fun total arr => total + length arr) a ls = a + sum_list_with length ls.
Proof.
  revert a. induction ls as [|l ls IH]; intros a; simpl; [lia|].
  rewrite IH. lia.
Qed.

Lemma elements_dom_map_to_list (m : gmap string (list Response.t)) :
  elements (dom m) ≡ₚ (map_to_list m).*1.
Proof.
  apply NoDup_Permutation.
  - apply NoDup_elements.
  - apply NoDup_fst_map_to_list.
  - intros k. rewrite elem_of_elements, elem_of_dom, list_elem_of_fmap.
    split.
    + intros [l Hl]. exists (k, l). split; [done|].
      by apply elem_of_map_to_list.
    + intros [[k' l] [-> Hl]]. exists l. by apply elem_of_map_to_list.
Qed.

Lemma sum_lengths_by_key (m : gmap string (list Response.t))
    (kvs : list (string * list Response.t)) :
  (∀ k l, (k, l) ∈ kvs → m !! k = Some l) →
  sum_list_with (fun k => length (default [] (m !! k))) kvs.*1
  = sum_list_with length kvs.*2.
Proof.
  induction kvs as [|[k l] kvs IH]; intros Hin; [done|].
  rewrite !fmap_cons. cbn [sum_list_with fst snd].
  rewrite (Hin k l) by left.
  rewrite IH; [done|].
  intros k' l' H'. apply Hin. by right.
Qed.

Lemma responsesCount_total st :
  foldl (fun total arr => total + length arr) 0 (map snd (map_to_list (responses st)))
  = total_recorded st.
Proof.
  rewrite foldl_add_length. simpl. unfold total_recorded.
  rewrite elements_dom_map_to_list.
  symmetry. apply sum_lengths_by_key.
  intros k l. apply elem_of_map_to_list.
Qed.





(** C9 at the id ["__proto__"].  On the empty store a poll is saved under
    ["__proto__"]: the save succeeds and [get] returns the element, which
    is therefore live, but the assignment of line 87 has made it the
    prototype of [presentationElements] and no own property, so
    [listElements] is empty and [getHealth()] reports [elementsCount = 0]. *)
Lemma health_misses_prototype_element :
  let st := fst (post_api_elements init 1000 proto_poll) in
  let e := {| Element.id := "__proto__"; Element.type := "poll";
              Element.title := "Pick one"; Element.options := [];
              Element.createdAt := 1000 |} in
  reachable st ∧
  snd (post_api_elements init 1000 proto_poll)
  = Json {| ElementSaved.success := true;
            ElementSaved.message := "Element saved successfully";
            ElementSaved.element := VElement e |} ∧
  get_api_elements_id st "__proto__" = Json (VElement e) ∧
  get_api_elements st = Json ∅ ∧
  get_api_health st 0 2000
  = Json {| Health.status := "healthy";
            Health.uptime := 0;
            Health.timestamp := 2000;
            Health.currentSlide := "";
            Health.elementsCount := 0;
            Health.responsesCount := 0 |}.
Proof.
  intros st e. split.
  - exact (reachable_next init (PostApiElements 1000 proto_poll) reachable_init).
  - repeat split; vm_compute; reflexivity.
Qed.

(** ** Counting responses per option *)

Lemma option_is_spec i r :
  option_is i r = true ↔ Response.option r = Some (Z.of_nat i).
Proof.
  unfold option_is. destruct (Response.option r) as [z|]; [|done].
  rewrite Z.eqb_eq. split; [by intros -> | by intros [= ->]].
Qed.

Lemma count_is_votes_for i l :
  length (List.filter (option_is i) l) = votes_for i l.
Proof.
  unfold votes_for. induction l as [|r l IH]; [done|].
  simpl. rewrite filter_cons.
  destruct (option_is i r) eqn:Hr; case_decide as Hd; simpl.
  - by rewrite IH.
  - by apply option_is_spec in Hr.
  - apply option_is_spec in Hd. congruence.
  - done.
Qed.

Lemma in_range_spec n r : in_range n r = true ↔ valid_option n r.
Proof.
  unfold in_range, valid_option.
  destruct (Response.option r) as [z|].
  - rewrite andb_true_iff, Z.leb_le, Z.ltb_lt. split.
    + intros [H0 Hn]. exists (Z.to_nat z). split; [lia|]. f_equal. lia.
    + intros (i & Hi & [= ->]). lia.
  - split; [done|]. by intros (i & _ & ?).
Qed.

Lemma in_range_S n r :
  in_range (S n) r = in_range n r || option_is n r ∧
  in_range n r && option_is n r = false.
Proof.
  unfold in_range, option_is. destruct (Response.option r) as [z|]; [|done].
  destruct (Z.leb_spec 0 z), (Z.ltb_spec z (Z.of_nat n)),
    (Z.ltb_spec z (Z.of_nat (S n))), (Z.eqb_spec z (Z.of_nat n));
    simpl; (done || lia).
Qed.

Lemma count_in_range_S n l :
  length (List.filter (in_range (S n)) l)
  = length (List.filter (in_range n) l) + length (List.filter (option_is n) l).
Proof.
  induction l as [|r l IH]; [done|]. simpl.
  destruct (in_range_S n r) as [-> Hdisjoint].
  destruct (in_range n r), (option_is n r); simpl in *; (done || lia).
Qed.

Lemma count_all_iff {A} (p : A → bool) (l : list A) :
  length (List.filter p l) ≤ length l ∧
  (length (List.filter p l) = length l ↔ Forall (fun x => p x = true) l).
Proof.
  induction l as [|x l [IHle IHeq]]; simpl.
  - split; [lia|]. split; [constructor | done].
  - destruct (p x) eqn:Hx; simpl.
    + split; [lia|]. split.
      * intros Hlen. constructor; [done|]. apply IHeq. lia.
      * intros Hall. apply Forall_cons in Hall as [_ Hall].
        apply IHeq in Hall. lia.
    + split; [lia|]. split; [lia|].
      intros Hall. apply Forall_cons in Hall as [Hx' _]. congruence.
Qed.

Lemma in_range_0 r : in_range 0 r = false.
Proof.
  unfold in_range. destruct (Response.option r) as [z|]; [|done].
  destruct (Z.leb_spec 0 z), (Z.ltb_spec z (Z.of_nat 0)); simpl; (done || lia).
Qed.

Lemma sum_counts_imap l options :
  sum_counts (imap (option_result l) options)
  = length (List.filter (in_range (length options)) l).
Proof.
  unfold sum_counts.
  induction options as [|o options IH] using rev_ind.
  - simpl. induction l as [|r l IHl]; [done|].
    simpl. by rewrite in_range_0.
  - rewrite imap_app, sum_list_with_app, IH, length_app. simpl.
    by rewrite !Nat.add_0_r, Nat.add_1_r, count_in_range_S.
Qed.

Lemma sum_counts_le_total l options :
  sum_counts (imap (option_result l) options) ≤ length l ∧
  (sum_counts (imap (option_result l) options) = length l
   ↔ Forall (valid_option (length options)) l).
Proof.
  rewrite sum_counts_imap.
  destruct (count_all_iff (in_range (length options)) l) as [Hle Heq].
  split; [done|]. rewrite Heq.
  apply Forall_proper; [|done]. intros r. apply in_range_spec.
Qed.

(** ** Percentages *)

Lemma percentage_of_no_responses count : percentage_of count 0 = 0%float.
Proof. reflexivity. Qed.

Lemma percentage_table :
  Forall (fun total =>
            Forall (fun count => percentage_of count total = spec_percentage count total)
                   (seq 0 (S total)))
         (seq 0 80).
Proof.
  repeat match goal with
  | |- Forall _ [] => constructor
  | |- Forall _ (_ :: _) => constructor
  | |- Forall _ ?l => let l' := eval vm_compute in l in change l with l'
  | |- _ = _ => vm_compute; reflexivity
  end.
Qed.

Lemma percentage_of_below_80 (count total : nat) :
  count ≤ total → total < 80 →
  percentage_of count total = spec_percentage count total.
Proof.
  intros Hc Ht.
  assert (total ∈ seq 0 80) as Hin by (apply elem_of_seq; lia).
  pose proof (proj1 (Forall_forall _ _) percentage_table total Hin) as Hrow.
  apply (proj1 (Forall_forall _ _) Hrow count). apply elem_of_seq. lia.
Qed.

(** ** Aggregation of a choice element *)

Lemma type_not_question e :
  Element.type e ≠ "question" → String.eqb (Element.type e) "question" = false.
Proof. intros H. by apply String.eqb_neq. Qed.

Lemma get_api_results_choice st now elementId e :
  plain elementId →
  elements_get (presentationElements st) elementId = VElement e →
  Element.type e ≠ "question" →
  get_api_results_elementId st now elementId
  = Json {| ResultsBody.elementId := elementId;
            ResultsBody.element := e;
            ResultsBody.results :=
              Choice (imap (option_result (recorded st elementId)) (Element.options e))
                     (Some (length (recorded st elementId)));
            ResultsBody.timestamp := now |}.
Proof.
  intros Hk He Hty.
  rewrite (get_api_results_array st now elementId e (recorded st elementId));
    [|done|by apply or_empty_recorded].
  unfold results_of. by rewrite type_not_question.
Qed.

Lemma votes_for_le i l : votes_for i l ≤ length l.
Proof. apply length_filter. Qed.

(** C1, as the code has it.  For an element that is not a question, saved
    under a plain id, [aggregate(elementId)] answers with [total] the
    number of responses recorded for the element and, for every option
    index [i], the entry made of the option's text, the number of
    responses whose option equals [i], and the percentage that lines 231
    and 236 compute in binary64 arithmetic,
    [Math.round((count / total * 100) * 10) / 10].  With no response every
    count and percentage is 0, and while [total] is below 80 the percentage
    is the value of [round(count/total*1000)/10]. *)
Theorem aggregate_choice_entries
    (st : Store) (now : Z) (elementId : string) (e : Element.t) :
  plain elementId →
  elements_get (presentationElements st) elementId = VElement e →
  Element.type e ≠ "question" →
  let total := length (recorded st elementId) in
  ∃ options,
    get_api_results_elementId st now elementId
    = Json {| ResultsBody.elementId := elementId;
              ResultsBody.element := e;
              ResultsBody.results := Choice options (Some total);
              ResultsBody.timestamp := now |} ∧
    length options = length (Element.options e) ∧
    ∀ i text,
      Element.options e !! i = Some text →
      let count := votes_for i (recorded st elementId) in
      options !! i
      = Some {| OptionResult.text := text;
                OptionResult.count := count;
                OptionResult.percentage := percentage_of count total |} ∧
      (total = 0 → count = 0 ∧ percentage_of count total = 0%float) ∧
      (total < 80 → percentage_of count total = spec_percentage count total).
Proof.
  intros Hk He Hty total.
  exists (imap (option_result (recorded st elementId)) (Element.options e)).
  split; [by apply get_api_results_choice|].
  split; [apply length_imap|].
  intros i text Hi count. split; [|split].
  - rewrite list_lookup_imap, Hi. simpl. unfold option_result.
    by rewrite count_is_votes_for.
  - intros H0. assert (count = 0) as ->.
    { pose proof (votes_for_le i (recorded st elementId)). unfold count, total in *. lia. }
    split; [done|]. rewrite H0. apply percentage_of_no_responses.
  - apply percentage_of_below_80. apply votes_for_le.
Qed.

Lemma aggregate_choice_entries_witness :
  plain "p1" ∧
  get_api_results_elementId scenario_store 2000 "p1"
  = Json {| ResultsBody.elementId := "p1";
            ResultsBody.element :=
              {| Element.id := "p1"; Element.type := "poll";
                 Element.title := "Pick one"; Element.options := ["A"; "B"];
                 Element.createdAt := 1000 |};
            ResultsBody.results :=
              Choice [ {| OptionResult.text := "A"; OptionResult.count := 2;
                          OptionResult.percentage := 66.7 |};
                       {| OptionResult.text := "B"; OptionResult.count := 1;
                          OptionResult.percentage := 33.3 |} ]
                     (Some 3);
            ResultsBody.timestamp := 2000 |}.
Proof.
  assert (plain "p1") as Hk by reflexivity.
  split; [exact Hk|].
  destruct (aggregate_choice_entries scenario_store 2000 "p1"
              {| Element.id := "p1"; Element.type := "poll";
                 Element.title := "Pick one"; Element.options := ["A"; "B"];
                 Element.createdAt := 1000 |} Hk eq_refl)
    as (options & Hreply & Hlen & Hentries); [discriminate|].
  rewrite Hreply.
  assert (options !! 0 = Some {| OptionResult.text := "A"; OptionResult.count := 2;
                                 OptionResult.percentage := 66.7 |}) as HA
    by (rewrite (proj1 (Hentries 0 "A" eq_refl)); vm_compute; reflexivity).
  assert (options !! 1 = Some {| OptionResult.text := "B"; OptionResult.count := 1;
                                 OptionResult.percentage := 33.3 |}) as HB
    by (rewrite (proj1 (Hentries 1 "B" eq_refl)); vm_compute; reflexivity).
  clear Hreply Hentries.
  destruct options as [|a [|b [|c options]]]; try discriminate Hlen.
  injection HA as ->. injection HB as ->.
  reflexivity.
Defined.

(** C1 as stated fails on the percentage: with 80 responses, 23 of them
    for option 0, the entry of option 0 carries 28.7, while
    [round(count/total*1000)/10] is 28.8, in binary64 arithmetic as in
    exact arithmetic (288 tenths). *)
Lemma percentage_of_23_in_80 :
  get_api_results_elementId eighty_store 2000 "p1"
  = Json {| ResultsBody.elementId := "p1";
            ResultsBody.element :=
              {| Element.id := "p1"; Element.type := "poll";
                 Element.title := "Pick one"; Element.options := ["A"; "B"];
                 Element.createdAt := 1000 |};
            ResultsBody.results :=
              Choice [ {| OptionResult.text := "A"; OptionResult.count := 23;
                          OptionResult.percentage := 28.7 |};
                       {| OptionResult.text := "B"; OptionResult.count := 57;
                          OptionResult.percentage := 71.3 |} ]
                     (Some 80);
            ResultsBody.timestamp := 2000 |} ∧
  spec_percentage 23 80 = 28.8%float ∧
  exact_tenths 23 80 = 288%Z ∧
  28.7%float ≠ 28.8%float.
Proof.
  split; [vm_compute; reflexivity|].
  split; [vm_compute; reflexivity|].
  split; [reflexivity|].
  intros H. apply (f_equal (fun x => PrimFloat.eqb x 28.8)) in H.
  vm_compute in H. discriminate H.
Qed.

(** ** Sum of the counts against the total *)

(** X2, the general fact behind C3.  For a choice element saved under a
    plain id, the counts of the aggregated result add up to at most [total], and
    to exactly [total] if and only if every recorded response carries an
    option that is an index into the element's options. *)
Theorem choice_counts_sum
    (st : Store) (now : Z) (elementId : string) (e : Element.t) :
  plain elementId →
  elements_get (presentationElements st) elementId = VElement e →
  Element.type e ≠ "question" →
  ∃ options,
    get_api_results_elementId st now elementId
    = Json {| ResultsBody.elementId := elementId;
              ResultsBody.element := e;
              ResultsBody.results :=
                Choice options (Some (length (recorded st elementId)));
              ResultsBody.timestamp := now |} ∧
    sum_counts options ≤ length (recorded st elementId) ∧
    (sum_counts options = length (recorded st elementId)
     ↔ Forall (valid_option (length (Element.options e))) (recorded st elementId)).
Proof.
  intros Hk He Hty. eexists. split; [by apply get_api_results_choice|].
  apply sum_counts_le_total.
Qed.

Lemma choice_counts_sum_witness :
  plain "p1" ∧
  ∃ options,
    get_api_results_elementId scenario_store 2000 "p1"
    = Json {| ResultsBody.elementId := "p1";
              ResultsBody.element :=
                {| Element.id := "p1"; Element.type := "poll";
                   Element.title := "Pick one"; Element.options := ["A"; "B"];
                   Element.createdAt := 1000 |};
              ResultsBody.results := Choice options (Some 3);
              ResultsBody.timestamp := 2000 |} ∧
    sum_counts options ≤ 3.
Proof.
  assert (plain "p1") as Hk by reflexivity.
  split; [exact Hk|].
  destruct (choice_counts_sum scenario_store 2000 "p1"
              {| Element.id := "p1"; Element.type := "poll";
                 Element.title := "Pick one"; Element.options := ["A"; "B"];
                 Element.createdAt := 1000 |} Hk eq_refl)
    as (options & Hreply & Hle & _); [discriminate|].
  exists options. split; [exact Hreply | exact Hle].
Defined.

(** C3 at an id that [Object.prototype] defines.  A poll without options
    is saved under ["constructor"]; no response is recorded, and a
    submission to that id throws.  [responses["constructor"]] is then the
    inherited [Object] function, whose [length] is 1, and the aggregation
    reports [total = 1] over an empty set of counts. *)
Lemma total_under_inherited_name :
  let st := fst (post_api_elements init 1000 constructor_poll) in
  responses st = ∅ ∧
  post_api_responses st 1500 (vote "constructor" "u1" 0) = (st, Thrown) ∧
  get_api_results_elementId st 2000 "constructor"
  = Json {| ResultsBody.elementId := "constructor";
            ResultsBody.element :=
              {| Element.id := "constructor"; Element.type := "poll";
                 Element.title := "Pick one"; Element.options := [];
                 Element.createdAt := 1000 |};
            ResultsBody.results := Choice [] (Some 1);
            ResultsBody.timestamp := 2000 |} ∧
  sum_counts [] = 0.
Proof. repeat split; vm_compute; reflexivity. Qed.

(** ** Deleting an element *)

Lemma element_field_defined e k v : element_field e k = Some v → v ≠ VUndefined.
Proof.
  unfold element_field.
  repeat (destruct (String.eqb k _); [by intros [= <-]|]). done.
Qed.

Lemma unshadowed_plain st id : unshadowed st id → plain id.
Proof.
  unfold unshadowed, plain, elements_inherited, responses_inherited,
    object_prototype_get.
  destruct (String.eqb id "__proto__").
  - by destruct (proto (presentationElements st)).
  - destruct (proto (presentationElements st)) as [p|].
    + destruct (element_field p id) as [v|] eqn:Hv.
      * intros ->. by apply element_field_defined in Hv.
      * by destruct (assoc id object_prototype_methods).
    + by destruct (assoc id object_prototype_methods).
Qed.

Lemma elements_get_unshadowed st id :
  unshadowed st id →
  elements_get (presentationElements st) id
  = match own (presentationElements st) !! id with
    | Some e => VElement e
    | None => VUndefined
    end.
Proof. intros Hid. unfold elements_get. by rewrite Hid. Qed.

(** X1, the general fact behind C2.  For an unshadowed id, [deleteElement(id)]
    answers 404 (NotFoundError) when no element is stored under the id;
    otherwise it removes the element and its responses in the one step, so
    that the element is no longer listed, [listResponses(id)] is empty with
    count 0, [aggregate(id)] answers 404, and every other id keeps its
    element and its responses. *)
Theorem delete_removes_element_and_responses (st : Store) (id : string) :
  unshadowed st id →
  (own (presentationElements st) !! id = None →
   delete_api_elements_id st id = (st, Status NotFoundError "Element not found")) ∧
  (∀ e, own (presentationElements st) !! id = Some e →
     let st' := fst (delete_api_elements_id st id) in
     snd (delete_api_elements_id st id)
     = Json {| Ack.success := true; Ack.message := "Element deleted successfully" |} ∧
     (∃ listed, get_api_elements st' = Json listed ∧ listed !! id = None) ∧
     get_api_responses_elementId st' id
     = Json {| ResponseList.elementId := id;
               ResponseList.responses := RArray [];
               ResponseList.count := Some 0 |} ∧
     (∀ now, get_api_results_elementId st' now id
             = Status NotFoundError "Element not found") ∧
     (∀ k, k ≠ id →
           own (presentationElements st') !! k = own (presentationElements st) !! k ∧
           responses st' !! k = responses st !! k)).
Proof.
  intros Hid. pose proof (unshadowed_plain st id Hid) as Hplain.
  unfold delete_api_elements_id. rewrite elements_get_unshadowed by done.
  split.
  - by intros ->.
  - intros e ->. simpl. split; [done|].
    assert (unshadowed
              {| currentSlide := currentSlide st;
                 presentationElements := elements_delete (presentationElements st) id;
                 responses := delete id (responses st) |} id) as Hid' by exact Hid.
    split; [|split; [|split]].
    + eexists. split; [reflexivity|]. simpl. apply lookup_delete_eq.
    + unfold get_api_responses_elementId. simpl.
      rewrite responses_get_plain by done. by rewrite lookup_delete_eq.
    + intros now. unfold get_api_results_elementId.
      rewrite elements_get_unshadowed by done. simpl.
      by rewrite lookup_delete_eq.
    + intros k Hk. by rewrite !lookup_delete_ne.
Qed.

Lemma delete_removes_element_and_responses_witness :
  unshadowed scenario_store "p1" ∧
  length (recorded scenario_store "p1") = 3 ∧
  get_api_responses_elementId (fst (delete_api_elements_id scenario_store "p1")) "p1"
  = Json {| ResponseList.elementId := "p1";
            ResponseList.responses := RArray [];
            ResponseList.count := Some 0 |} ∧
  get_api_results_elementId (fst (delete_api_elements_id scenario_store "p1")) 2000 "p1"
  = Status 404 "Element not found".
Proof.
  assert (unshadowed scenario_store "p1") as Hid by reflexivity.
  split; [exact Hid|]. split; [reflexivity|].
  destruct (proj2 (delete_removes_element_and_responses scenario_store "p1" Hid)
              {| Element.id := "p1"; Element.type := "poll";
                 Element.title := "Pick one"; Element.options := ["A"; "B"];
                 Element.createdAt := 1000 |} eq_refl)
    as (_ & _ & Hlist & Hagg & _).
  split; [exact Hlist | exact (Hagg 2000%Z)].
Defined.

(** C2 at ids that [Object.prototype] defines.  On the empty store no
    element is listed, yet [deleteElement("constructor")] answers success:
    the guard of line 131 reads the inherited [Object] function, which is
    truthy.  An element saved under ["__proto__"] becomes the prototype of
    [presentationElements]; [deleteElement("__proto__")] answers success
    and leaves it in place, so that [get] and [aggregate] still find it. *)
Lemma delete_under_inherited_name :
  get_api_elements init = Json ∅ ∧
  delete_api_elements_id init "constructor"
  = (init, Json {| Ack.success := true;
                   Ack.message := "Element deleted successfully" |}) ∧
  get_api_responses_elementId init "constructor"
  = Json {| ResponseList.elementId := "constructor";
            ResponseList.responses := RFunction 1;
            ResponseList.count := Some 1 |} ∧
  get_api_results_elementId init 2000 "constructor" = Thrown ∧
  let st := fst (post_api_elements init 1000 proto_poll) in
  let e := {| Element.id := "__proto__"; Element.type := "poll";
              Element.title := "Pick one"; Element.options := [];
              Element.createdAt := 1000 |} in
  delete_api_elements_id st "__proto__"
  = (st, Json {| Ack.success := true;
                 Ack.message := "Element deleted successfully" |}) ∧
  get_api_elements_id st "__proto__" = Json (VElement e) ∧
  get_api_results_elementId st 2000 "__proto__"
  = Json {| ResultsBody.elementId := "__proto__";
            ResultsBody.element := e;
            ResultsBody.results := Choice [] None;
            ResultsBody.timestamp := 2000 |}.
Proof. repeat split; vm_compute; reflexivity. Qed.

(** ** Submitting a response *)

Lemma post_api_responses_appends st now body elementId user :
  ResponseBody.elementId body = Some elementId → elementId ≠ "" →
  ResponseBody.user body = Some user → user ≠ "" →
  plain elementId →
  let responseData :=
    {| Response.user := user;
       Response.timestamp := now;
       Response.response := ResponseBody.response body;
       Response.option := ResponseBody.option body;
       Response.optionText := ResponseBody.optionText body |} in
  post_api_responses st now body
  = ({| currentSlide := currentSlide st;
        presentationElements := presentationElements st;
        responses :=
          <[elementId := recorded st elementId ++ [responseData]]> (responses st) |},
     Json {| ResponseRecorded.success := true;
             ResponseRecorded.message := "Response recorded successfully";
             ResponseRecorded.responseCount :=
               Some (S (length (recorded st elementId))) |}).
Proof.
  intros He He' Hu Hu' Hk responseData. unfold post_api_responses.
  rewrite (field_Some _ _ He He'), (field_Some _ _ Hu Hu').
  fold responseData. rewrite (responses_get_plain (responses st)) by done.
  unfold recorded.
  destruct (responses st !! elementId) as [l|] eqn:Hl; simpl.
  - rewrite responses_get_plain, Hl by done.
    rewrite responses_get_plain, lookup_insert_eq by done.
    simpl. by rewrite length_app, Nat.add_1_r.
  - rewrite responses_get_plain, lookup_insert_eq by done.
    rewrite responses_get_plain, lookup_insert_eq by done.
    simpl. by rewrite insert_insert_eq.
Qed.

(** X3, the general fact behind C4.  For a plain id, [submitResponse]
    with a non-empty [elementId] and [user] succeeds, appends the response
    to those recorded under the id and answers with the new count, and
    [listResponses] then returns the extended sequence with that count.
    If moreover the id is unshadowed and [listElements] does not list it,
    [aggregate] answers 404 (NotFoundError). *)
Theorem submit_without_element
    (st : Store) (now later : Z) (body : ResponseBody.t) (elementId user : string) :
  ResponseBody.elementId body = Some elementId → elementId ≠ "" →
  ResponseBody.user body = Some user → user ≠ "" →
  plain elementId →
  let responseData :=
    {| Response.user := user;
       Response.timestamp := now;
       Response.response := ResponseBody.response body;
       Response.option := ResponseBody.option body;
       Response.optionText := ResponseBody.optionText body |} in
  let st' := fst (post_api_responses st now body) in
  snd (post_api_responses st now body)
  = Json {| ResponseRecorded.success := true;
            ResponseRecorded.message := "Response recorded successfully";
            ResponseRecorded.responseCount :=
              Some (S (length (recorded st elementId))) |} ∧
  get_api_responses_elementId st' elementId
  = Json {| ResponseList.elementId := elementId;
            ResponseList.responses :=
              RArray (recorded st elementId ++ [responseData]);
            ResponseList.count := Some (S (length (recorded st elementId))) |} ∧
  (unshadowed st elementId →
   (∀ listed, get_api_elements st = Json listed → listed !! elementId = None) →
   get_api_results_elementId st' later elementId
   = Status NotFoundError "Element not found").
Proof.
  intros He He' Hu Hu' Hk responseData st'. unfold st'.
  rewrite (post_api_responses_appends st now body elementId user) by done.
  fold responseData. simpl. split; [done|]. split.
  - unfold get_api_responses_elementId. simpl.
    rewrite responses_get_plain, lookup_insert_eq by done. simpl.
    by rewrite length_app, Nat.add_1_r.
  - intros Hun Hlisted. unfold get_api_results_elementId. simpl.
    rewrite elements_get_unshadowed by done.
    by rewrite (Hlisted _ eq_refl).
Qed.

Lemma submit_without_element_witness :
  plain "ghost" ∧ unshadowed init "ghost" ∧
  snd (post_api_responses init 1000 (answer "ghost" "u1" "boo"))
  = Json {| ResponseRecorded.success := true;
            ResponseRecorded.message := "Response recorded successfully";
            ResponseRecorded.responseCount := Some 1 |} ∧
  get_api_responses_elementId
    (fst (post_api_responses init 1000 (answer "ghost" "u1" "boo"))) "ghost"
  = Json {| ResponseList.elementId := "ghost";
            ResponseList.responses :=
              RArray [ {| Response.user := "u1"; Response.timestamp := 1000;
                          Response.response := Some "boo";
                          Response.option := None;
                          Response.optionText := None |} ];
            ResponseList.count := Some 1 |} ∧
  get_api_results_elementId
    (fst (post_api_responses init 1000 (answer "ghost" "u1" "boo"))) 2000 "ghost"
  = Status 404 "Element not found".
Proof.
  assert (plain "ghost") as Hk by reflexivity.
  assert (unshadowed init "ghost") as Hun by reflexivity.
  split; [exact Hk|]. split; [exact Hun|].
  destruct (submit_without_element init 1000 2000 (answer "ghost" "u1" "boo")
              "ghost" "u1" eq_refl ltac:(discriminate) eq_refl ltac:(discriminate) Hk)
    as (Hreply & Hlist & Hagg).
  split; [exact Hreply|]. split; [exact Hlist|].
  apply Hagg; [exact Hun|]. intros listed [= <-]. reflexivity.
Defined.

(** C4 at an id that [Object.prototype] defines.  On the empty store,
    [submitResponse] for ["constructor"] with a user passes the guard of
    line 152; [responses["constructor"]] is the inherited [Object]
    function, so line 157 initialises nothing and [push] throws.  Nothing
    is recorded, and [listResponses("constructor")] reports count 1
    before and after. *)
Lemma submit_under_inherited_name :
  get_api_elements init = Json ∅ ∧
  post_api_responses init 1000 (vote "constructor" "u1" 0) = (init, Thrown) ∧
  get_api_responses_elementId init "constructor"
  = Json {| ResponseList.elementId := "constructor";
            ResponseList.responses := RFunction 1;
            ResponseList.count := Some 1 |}.
Proof. repeat split; vm_compute; reflexivity. Qed.
(** ** Further properties of the handlers *)

Lemma field_inv f s : field f = Some s → f = Some s ∧ s ≠ "".
Proof.
  unfold field. destruct f as [s'|]; [|done].
  destruct (String.eqb_spec s' ""); [done|]. by intros [= ->].
Qed.

Lemma results_of_question e l :
  Element.type e = "question" → results_of e l = Text (map text_entry l).
Proof. intros Hty. unfold results_of. by rewrite Hty. Qed.

(** X4. For a question saved under a plain id, [aggregate] lists one entry
    per recorded response, in submission order, each with the user, the
    text and the time of its response; a further submission adds its entry
    at the end and leaves the earlier entries as they were. *)
Theorem text_results_follow_submissions
    (st : Store) (now later : Z) (body : ResponseBody.t)
    (elementId user : string) (e : Element.t) :
  ResponseBody.elementId body = Some elementId → elementId ≠ "" →
  ResponseBody.user body = Some user → user ≠ "" →
  plain elementId →
  elements_get (presentationElements st) elementId = VElement e →
  Element.type e = "question" →
  get_api_results_elementId st now elementId
  = Json {| ResultsBody.elementId := elementId;
            ResultsBody.element := e;
            ResultsBody.results := Text (map text_entry (recorded st elementId));
            ResultsBody.timestamp := now |} ∧
  get_api_results_elementId (fst (post_api_responses st now body)) later elementId
  = Json {| ResultsBody.elementId := elementId;
            ResultsBody.element := e;
            ResultsBody.results :=
              Text (map text_entry (recorded st elementId)
                    ++ [ {| TextEntry.user := user;
                            TextEntry.response := ResponseBody.response body;
                            TextEntry.timestamp := now |} ]);
            ResultsBody.timestamp := later |}.
Proof.
  intros He He' Hu Hu' Hk Hel Hty. split.
  - rewrite (get_api_results_array st now elementId e (recorded st elementId));
      [|done|by apply or_empty_recorded].
    by rewrite results_of_question.
  - rewrite (post_api_responses_appends st now body elementId user) by done.
    simpl.
    rewrite (get_api_results_array _ later elementId e
               (recorded st elementId
                ++ [ {| Response.user := user;
                        Response.timestamp := now;
                        Response.response := ResponseBody.response body;
                        Response.option := ResponseBody.option body;
                        Response.optionText := ResponseBody.optionText body |} ]));
      [|exact Hel|].
    + rewrite results_of_question by done. by rewrite map_app.
    + simpl. apply or_empty_own. apply lookup_insert_eq.
Qed.

Lemma text_results_follow_submissions_witness :
  plain "q1" ∧
  get_api_results_elementId
    (fst (post_api_responses question_store 1002 (answer "q1" "u2" "second")))
    2000 "q1"
  = Json {| ResultsBody.elementId := "q1";
            ResultsBody.element :=
              {| Element.id := "q1"; Element.type := "question";
                 Element.title := "Any remarks?"; Element.options := [];
                 Element.createdAt := 1000 |};
            ResultsBody.results :=
              Text [ {| TextEntry.user := "u1"; TextEntry.response := Some "first";
                        TextEntry.timestamp := 1001 |};
                     {| TextEntry.user := "u2"; TextEntry.response := Some "second";
                        TextEntry.timestamp := 1002 |} ];
            ResultsBody.timestamp := 2000 |}.
Proof.
  assert (plain "q1") as Hk by reflexivity.
  split; [exact Hk|].
  refine (proj2 (text_results_follow_submissions question_store 1002 2000
                   (answer "q1" "u2" "second") "q1" "u2"
                   {| Element.id := "q1"; Element.type := "question";
                      Element.title := "Any remarks?"; Element.options := [];
                      Element.createdAt := 1000 |}
                   eq_refl _ eq_refl _ Hk eq_refl eq_refl)); discriminate.
Defined.

Lemma option_result_no_responses index option :
  option_result [] index option
  = {| OptionResult.text := option;
       OptionResult.count := 0;
       OptionResult.percentage := 0 |}.
Proof. reflexivity. Qed.

(** X5. [clearAllResponses] with the admin key succeeds and replaces the
    response store by an empty one, leaving the elements and the slide:
    afterwards [listResponses] of every plain id is empty with count 0,
    [getHealth] reports no response and the same number of elements, and
    the aggregation of every choice element saved under a plain id has
    total 0 with count 0 and percentage 0 for each option. *)
Theorem clear_with_key_empties_all (st : Store) :
  let st' := fst (delete_api_responses st (Some admin_key)) in
  snd (delete_api_responses st (Some admin_key))
  = Json {| Ack.success := true; Ack.message := "All responses cleared" |} ∧
  presentationElements st' = presentationElements st ∧
  currentSlide st' = currentSlide st ∧
  (∀ k, plain k →
        get_api_responses_elementId st' k
        = Json {| ResponseList.elementId := k;
                  ResponseList.responses := RArray [];
                  ResponseList.count := Some 0 |}) ∧
  (∀ uptime now,
     ∃ h, get_api_health st' uptime now = Json h ∧
          Health.responsesCount h = 0 ∧
          Health.elementsCount h = size (own (presentationElements st))) ∧
  (∀ k e now,
     plain k →
     elements_get (presentationElements st) k = VElement e →
     Element.type e ≠ "question" →
     ∃ options,
       get_api_results_elementId st' now k
       = Json {| ResultsBody.elementId := k;
                 ResultsBody.element := e;
                 ResultsBody.results := Choice options (Some 0);
                 ResultsBody.timestamp := now |} ∧
       Forall (fun o => OptionResult.count o = 0
                        ∧ OptionResult.percentage o = 0%float) options).
Proof.
  intros st'. unfold st', delete_api_responses.
  rewrite decide_True by done. simpl.
  split; [done|]. split; [done|]. split; [done|]. split; [|split].
  - intros k Hk. unfold get_api_responses_elementId. simpl.
    rewrite responses_get_plain by done. by rewrite lookup_empty.
  - intros uptime now. eexists. split; [reflexivity|]. simpl.
    by rewrite map_to_list_empty.
  - intros k e now Hk He Hty. eexists. split.
    + rewrite (get_api_results_choice _ now k e); [|done|done|done].
      unfold recorded. simpl. rewrite lookup_empty. reflexivity.
    + apply Forall_lookup. intros i o. rewrite list_lookup_imap.
      destruct (Element.options e !! i) as [text|]; [|done].
      simpl. intros [= <-]. by rewrite option_result_no_responses.
Qed.

(** X6. [GET /admin] redirects exactly for the key with which
    [clearAllResponses] succeeds, and the location of the redirect carries
    that key; for any other key, or none, both routes answer 401 and the
    store is left as it was. *)
Theorem admin_routes_share_key (st : Store) (adminKey : option string) :
  (adminKey = Some admin_key →
   get_admin adminKey = Redirect ("/?admin=" +:+ admin_key) ∧
   succeeded (snd (delete_api_responses st adminKey)) = true) ∧
  (adminKey ≠ Some admin_key →
   get_admin adminKey = Refused UnauthorizedError "Unauthorized access" ∧
   delete_api_responses st adminKey
   = (st, Status UnauthorizedError "Unauthorized")).
Proof.
  unfold get_admin, delete_api_responses, admin_key. split; intros Hkey.
  - by rewrite !decide_True.
  - by rewrite !decide_False.
Qed.

(** X7. For an unshadowed id, [get(id)] answers with an element exactly
    when [listElements] lists that element under the id, and answers 404
    (NotFoundError) exactly when the id is not listed. *)
Theorem get_agrees_with_list
    (st : Store) (id : string) (listed : gmap string Element.t) :
  unshadowed st id →
  get_api_elements st = Json listed →
  (∀ e, get_api_elements_id st id = Json (VElement e) ↔ listed !! id = Some e) ∧
  (get_api_elements_id st id = Status NotFoundError "Element not found"
   ↔ listed !! id = None).
Proof.
  intros Hid [= <-].
  unfold get_api_elements_id. rewrite elements_get_unshadowed by done.
  destruct (own (presentationElements st) !! id) as [e0|]; simpl.
  - split; [|done]. intros e. split; [by intros [= ->] | by intros [= ->]].
  - split; [|done]. intros e. split; discriminate.
Qed.

Lemma get_agrees_with_list_witness :
  unshadowed scenario_store "p1" ∧ unshadowed scenario_store "p2" ∧
  get_api_elements_id scenario_store "p1"
  = Json (VElement {| Element.id := "p1"; Element.type := "poll";
                      Element.title := "Pick one"; Element.options := ["A"; "B"];
                      Element.createdAt := 1000 |}) ∧
  get_api_elements_id scenario_store "p2" = Status 404 "Element not found".
Proof.
  assert (unshadowed scenario_store "p1") as H1 by reflexivity.
  assert (unshadowed scenario_store "p2") as H2 by reflexivity.
  split; [exact H1|]. split; [exact H2|]. split.
  - apply (proj1 (get_agrees_with_list scenario_store "p1" _ H1 eq_refl)).
    vm_compute. reflexivity.
  - apply (proj2 (get_agrees_with_list scenario_store "p2" _ H2 eq_refl)).
    vm_compute. reflexivity.
Defined.

(** ** What a submission does, for every element id *)

Lemma store_eta st :
  {| currentSlide := currentSlide st;
     presentationElements := presentationElements st;
     responses := responses st |} = st.
Proof. by destruct st. Qed.

Lemma post_api_responses_cases st now body :
  (fst (post_api_responses st now body) = st ∧
   succeeded (snd (post_api_responses st now body)) = false) ∨
  (∃ elementId user,
     field (ResponseBody.elementId body) = Some elementId ∧
     field (ResponseBody.user body) = Some user ∧
     (responses st !! elementId = None → plain elementId) ∧
     post_api_responses st now body
     = ({| currentSlide := currentSlide st;
           presentationElements := presentationElements st;
           responses :=
             <[elementId :=
                 recorded st elementId
                 ++ [ {| Response.user := user;
                         Response.timestamp := now;
                         Response.response := ResponseBody.response body;
                         Response.option := ResponseBody.option body;
                         Response.optionText := ResponseBody.optionText body |} ]]>
               (responses st) |},
        Json {| ResponseRecorded.success := true;
                ResponseRecorded.message := "Response recorded successfully";
                ResponseRecorded.responseCount :=
                  Some (S (length (recorded st elementId))) |})).
Proof.
  unfold post_api_responses.
  destruct (field (ResponseBody.elementId body)) as [elementId|] eqn:He;
    [|by left].
  destruct (field (ResponseBody.user body)) as [user|] eqn:Hu; [|by left].
  destruct (responses st !! elementId) as [l|] eqn:Hl.
  - assert (responses_get (responses st) elementId = RArray l) as Hg
      by (unfold responses_get; by rewrite Hl).
    rewrite Hg. simpl. rewrite Hg.
    right. exists elementId, user. split; [done|]. split; [done|].
    split; [by rewrite Hl|]. unfold recorded, responses_get.
    rewrite Hl, lookup_insert_eq. simpl.
    by rewrite length_app, Nat.add_1_r.
  - assert (responses_get (responses st) elementId = responses_inherited elementId)
      as Hg by (unfold responses_get; by rewrite Hl).
    rewrite Hg.
    destruct (responses_inherited elementId) eqn:Hi; simpl.
    + right. exists elementId, user. split; [done|]. split; [done|].
      split; [done|]. unfold recorded, responses_get.
      rewrite Hl, !lookup_insert_eq. simpl.
      by rewrite insert_insert_eq.
    + by apply responses_inherited_no_array in Hi.
    + left. rewrite Hg. simpl. by rewrite store_eta.
    + left. rewrite Hg. simpl. by rewrite store_eta.
Qed.

(** ** Invariants of the reachable stores *)

Lemma elements_ok_init : elements_ok init.
Proof. split; simpl; [intros k e Hk; by rewrite lookup_empty in Hk | done]. Qed.

Lemma elements_ok_post_api_elements st now body :
  elements_ok st → elements_ok (fst (post_api_elements st now body)).
Proof.
  intros [Hown Hproto]. unfold post_api_elements.
  destruct (field (ElementBody.id body)) as [id|] eqn:Hid; [|by split].
  destruct (field (ElementBody.type body)) as [type|] eqn:Hty; [|by split].
  destruct (field (ElementBody.title body)) as [title|] eqn:Hti; [|by split].
  apply field_inv in Hid as [_ Hid], Hty as [_ Hty], Hti as [_ Hti].
  simpl. unfold elements_set.
  destruct (String.eqb_spec id "__proto__") as [-> | Hne]; split; simpl.
  - done.
  - by intros p [= <-].
  - intros k e. rewrite lookup_insert. case_decide as Hk; [|apply Hown].
    subst k. by intros [= <-].
  - done.
Qed.

Lemma elements_ok_next st r : elements_ok st → elements_ok (next st r).
Proof.
  intros Hok. destruct r; simpl; try done.
  - unfold get_api_sync. destruct (field slideName); [|done].
    destruct Hok. by split.
  - by apply elements_ok_post_api_elements.
  - unfold delete_api_elements_id. destruct (negb _); [done|].
    destruct Hok as [Hown Hproto]. split; simpl; [|done].
    intros k e Hk. apply lookup_delete_Some in Hk as [_ Hk]. by apply Hown.
  - destruct (post_api_responses_cases st now body)
      as [[-> _] | (elementId & user & _ & _ & _ & ->)]; [done|].
    destruct Hok. by split.
  - unfold delete_api_responses. case_decide; [|done].
    destruct Hok. by split.
Qed.

Lemma reachable_elements_ok st : reachable st → elements_ok st.
Proof. induction 1; [apply elements_ok_init | by apply elements_ok_next]. Qed.

Lemma elements_inherited_element o k e :
  elements_inherited o k = VElement e → k = "__proto__" ∧ proto o = Some e.
Proof.
  unfold elements_inherited, object_prototype_get.
  destruct (String.eqb_spec k "__proto__") as [-> | Hk].
  - destruct (proto o); [|done]. by intros [= ->].
  - assert (∀ p, element_field p k ≠ Some (VElement e)) as Hfield.
    { intros p. unfold element_field.
      repeat (destruct (String.eqb k _); [done|]). done. }
    destruct (proto o) as [p|].
    + destruct (element_field p k) as [v|] eqn:Hv.
      * intros ->. by apply Hfield in Hv.
      * by destruct (assoc k object_prototype_methods).
    + by destruct (assoc k object_prototype_methods).
Qed.

(** X8. In every store the server can reach, an element that [get(id)]
    returns, or that [listElements] lists under [id], carries [id] as its
    own id, and its type and title are not empty. *)
Theorem reachable_elements_well_keyed (st : Store) (id : string) (e : Element.t) :
  reachable st →
  get_api_elements_id st id = Json (VElement e)
  ∨ (∃ listed, get_api_elements st = Json listed ∧ listed !! id = Some e) →
  Element.id e = id ∧ Element.type e ≠ "" ∧ Element.title e ≠ "".
Proof.
  intros Hst Hget. destruct (reachable_elements_ok st Hst) as [Hown Hproto].
  assert (well_keyed id e) as (? & _ & ? & ?); [|done].
  destruct Hget as [Hget | (listed & [= <-] & Hlisted)]; [|by apply Hown].
  unfold get_api_elements_id in Hget.
  destruct (truthy (elements_get (presentationElements st) id)); [|done].
  simpl in Hget. injection Hget as Hget. unfold elements_get in Hget.
  destruct (own (presentationElements st) !! id) as [e'|] eqn:He'.
  - injection Hget as ->. by apply Hown.
  - apply elements_inherited_element in Hget as [-> Hp]. by apply Hproto.
Qed.

Lemma reachable_elements_well_keyed_witness :
  let st := fst (post_api_elements scenario_store 2000 proto_poll) in
  let e := {| Element.id := "__proto__"; Element.type := "poll";
              Element.title := "Pick one"; Element.options := [];
              Element.createdAt := 2000 |} in
  reachable st ∧
  get_api_elements_id st "__proto__" = Json (VElement e) ∧
  Element.id e = "__proto__" ∧ Element.type e ≠ "" ∧ Element.title e ≠ "".
Proof.
  intros st e.
  assert (reachable st) as Hst
    by exact (reachable_next scenario_store (PostApiElements 2000 proto_poll)
                scenario_store_reachable).
  assert (get_api_elements_id st "__proto__" = Json (VElement e)) as Hget
    by (vm_compute; reflexivity).
  split; [exact Hst|]. split; [exact Hget|].
  exact (reachable_elements_well_keyed st "__proto__" e Hst (or_introl Hget)).
Defined.

Lemma responses_ok_init : responses_ok init.
Proof. intros k l Hl. simpl in Hl. by rewrite lookup_empty in Hl. Qed.

Lemma responses_ok_next st r : responses_ok st → responses_ok (next st r).
Proof.
  intros Hok. destruct r; simpl; try done.
  - unfold get_api_sync. by destruct (field slideName).
  - unfold responses_ok.
    by rewrite (proj1 (post_api_elements_frame st now body)).
  - unfold delete_api_elements_id. destruct (negb _); [done|].
    intros k l Hl. simpl in Hl. apply lookup_delete_Some in Hl as [_ Hl].
    by apply Hok.
  - destruct (post_api_responses_cases st now body)
      as [[-> _] | (elementId & user & He & Hu & _ & ->)]; [done|].
    apply field_inv in He as [_ He], Hu as [_ Hu].
    intros k l. simpl. rewrite lookup_insert. case_decide as Hk.
    + subst k. intros [= <-]. split; [done|]. split.
      * by destruct (recorded st elementId).
      * apply Forall_app. split; [|by repeat constructor].
        unfold recorded.
        destruct (responses st !! elementId) as [l0|] eqn:Hl0; [|constructor].
        by apply (Hok elementId l0).
    + apply Hok.
  - unfold delete_api_responses. case_decide; [|done].
    intros k l Hl. simpl in Hl. by rewrite lookup_empty in Hl.
Qed.

Lemma reachable_responses_ok st : reachable st → responses_ok st.
Proof. induction 1; [apply responses_ok_init | by apply responses_ok_next]. Qed.

(** X9. In every store the server can reach, each array of the response
    store sits under a non-empty plain key, holds at least one response,
    and every response in it has a non-empty user: no array is left empty
    by a submission that failed. *)
Theorem reachable_responses_shape
    (st : Store) (elementId : string) (l : list Response.t) :
  reachable st →
  responses st !! elementId = Some l →
  plain elementId ∧ elementId ≠ "" ∧ l ≠ [] ∧
  Forall (fun r => Response.user r ≠ "") l.
Proof.
  intros Hst Hl. split.
  - apply (wf_responses st (reachable_wf st Hst)). by exists l.
  - by apply (reachable_responses_ok st Hst).
Qed.

Lemma reachable_responses_shape_witness :
  reachable scenario_store ∧
  plain "p1" ∧ "p1" ≠ "" ∧ recorded scenario_store "p1" ≠ [] ∧
  Forall (fun r => Response.user r ≠ "") (recorded scenario_store "p1").
Proof.
  split; [exact scenario_store_reachable|].
  exact (reachable_responses_shape scenario_store "p1"
           (recorded scenario_store "p1") scenario_store_reachable eq_refl).
Defined.

(** X10. Responses are append-only.  Whatever the request, the responses
    recorded under an id afterwards are the ones recorded before, or the
    ones before followed by the one response of a submission for that id,
    or none at all; and they are none at all, where they were not before,
    only after a successful deletion of the element with that id or a
    successful clear. *)
Theorem responses_append_only (st : Store) (r : Request) (elementId : string) :
  recorded (next st r) elementId = recorded st elementId
  ∨ (∃ now body user,
       r = PostApiResponses now body ∧
       ResponseBody.elementId body = Some elementId ∧
       ResponseBody.user body = Some user ∧
       recorded (next st r) elementId
       = recorded st elementId
         ++ [ {| Response.user := user;
                 Response.timestamp := now;
                 Response.response := ResponseBody.response body;
                 Response.option := ResponseBody.option body;
                 Response.optionText := ResponseBody.optionText body |} ])
  ∨ (recorded (next st r) elementId = [] ∧
     outcome st r = true ∧
     (r = DeleteApiElementsId elementId ∨ ∃ adminKey, r = DeleteApiResponses adminKey)).
Proof.
  destruct r; simpl; try by left.
  - left. unfold get_api_sync. by destruct (field slideName).
  - left. unfold recorded.
    by rewrite (proj1 (post_api_elements_frame st now body)).
  - unfold delete_api_elements_id. destruct (negb _) eqn:Hguard; [by left|].
    unfold recorded. simpl. rewrite lookup_delete. case_decide as Hid.
    + subst id. right. right. split; [done|]. split; [done|]. by left.
    + by left.
  - destruct (post_api_responses_cases st now body)
      as [[-> _] | (k & user & Hk & Hu & _ & ->)]; [by left|].
    apply field_inv in Hk as [Hk _], Hu as [Hu _].
    destruct (decide (k = elementId)) as [-> | Hid].
    + right. left. exists now, body, user. repeat split; try done.
      unfold recorded at 1. simpl. by rewrite lookup_insert_eq.
    + left. unfold recorded. simpl. by rewrite lookup_insert_ne.
  - unfold delete_api_responses. case_decide as Hkey; [|by left].
    right. right. unfold recorded. simpl. rewrite lookup_empty.
    split; [done|]. split; [done|]. right. by eexists.
Qed.

(** X11. A request that is not answered with success changes nothing: if
    the handler answers with an error status or throws, the store after
    the request is the store before it. *)
Theorem failed_request_changes_nothing (st : Store) (r : Request) :
  outcome st r = false → next st r = st.
Proof.
  destruct r; simpl; try done.
  - unfold get_api_sync. by destruct (field slideName).
  - unfold post_api_elements.
    by destruct (field (ElementBody.id body)), (field (ElementBody.type body)),
      (field (ElementBody.title body)).
  - unfold delete_api_elements_id. by destruct (negb _).
  - by destruct (post_api_responses_cases st now body)
      as [[-> _] | (k & user & _ & _ & _ & ->)].
  - unfold delete_api_responses. by case_decide.
Qed.

Lemma failed_request_changes_nothing_witness :
  outcome scenario_store (PostApiResponses 2000 (vote "toString" "u9" 0)) = false ∧
  next scenario_store (PostApiResponses 2000 (vote "toString" "u9" 0))
  = scenario_store.
Proof.
  assert (outcome scenario_store (PostApiResponses 2000 (vote "toString" "u9" 0))
          = false) as Hfail by reflexivity.
  split; [exact Hfail|].
  exact (failed_request_changes_nothing scenario_store _ Hfail).
Defined.

(** X12. The responses recorded under an id are written by three requests
    only: a submission for that id, the deletion of the element with that
    id, and a clear.  Every other request leaves them as they are. *)
Theorem responses_written_locally (st : Store) (r : Request) (elementId : string) :
  writes_responses_of elementId r = false →
  responses (next st r) !! elementId = responses st !! elementId.
Proof.
  destruct r; simpl; try done.
  - intros _. unfold get_api_sync. by destruct (field slideName).
  - intros _. by rewrite (proj1 (post_api_elements_frame st now body)).
  - intros Hid. apply bool_decide_eq_false in Hid.
    unfold delete_api_elements_id. destruct (negb _); [done|].
    simpl. by rewrite lookup_delete_ne.
  - intros Hid. apply bool_decide_eq_false in Hid.
    destruct (post_api_responses_cases st now body)
      as [[-> _] | (k & user & Hk & _ & _ & ->)]; [done|].
    apply field_inv in Hk as [Hk _]. simpl. rewrite lookup_insert_ne; [done|].
    intros ->. by apply Hid.
Qed.

Lemma responses_written_locally_witness :
  writes_responses_of "p1" (PostApiResponses 2000 (vote "p2" "u9" 0)) = false ∧
  recorded (next scenario_store (PostApiResponses 2000 (vote "p2" "u9" 0))) "p1"
  = recorded scenario_store "p1".
Proof.
  assert (writes_responses_of "p1" (PostApiResponses 2000 (vote "p2" "u9" 0))
          = false) as Hw by reflexivity.
  split; [exact Hw|].
  unfold recorded.
  by rewrite (responses_written_locally scenario_store _ "p1" Hw).
Defined.

(** ** Counting responses across the store *)

Lemma sum_lengths_insert (m : gmap string (list Response.t)) k v :
  sum_list_with length (map snd (map_to_list (<[k := v]> m)))
  + length (default [] (m !! k))
  = sum_list_with length (map snd (map_to_list m)) + length v.
Proof.
  destruct (m !! k) as [l|] eqn:Hl; simpl.
  - rewrite <- (map_to_list_delete m k l Hl), <- insert_delete_eq.
    rewrite map_to_list_insert by apply lookup_delete_eq.
    simpl. lia.
  - rewrite map_to_list_insert by done. simpl. lia.
Qed.

(** X13. A submission that succeeds raises the [responsesCount] that
    [getHealth] reports by exactly one, and leaves [elementsCount] and
    [currentSlide] of the report as they were. *)
Theorem health_counts_each_submission
    (st : Store) (now : Z) (body : ResponseBody.t)
    (uptime uptime' : float) (before after : Z) (h h' : Health.t) :
  succeeded (snd (post_api_responses st now body)) = true →
  get_api_health st uptime before = Json h →
  get_api_health (fst (post_api_responses st now body)) uptime' after = Json h' →
  Health.responsesCount h' = S (Health.responsesCount h) ∧
  Health.elementsCount h' = Health.elementsCount h ∧
  Health.currentSlide h' = Health.currentSlide h.
Proof.
  intros Hok [= <-] [= <-].
  destruct (post_api_responses_cases st now body)
    as [[_ Hfail] | (k & user & _ & _ & _ & Hpost)]; [congruence|].
  rewrite Hpost. simpl. split; [|done].
  rewrite !foldl_add_length. simpl.
  pose proof (sum_lengths_insert (responses st) k
                (recorded st k
                 ++ [ {| Response.user := user;
                         Response.timestamp := now;
                         Response.response := ResponseBody.response body;
                         Response.option := ResponseBody.option body;
                         Response.optionText := ResponseBody.optionText body |} ]))
    as Hsum.
  rewrite length_app in Hsum. unfold recorded in *. simpl in Hsum. lia.
Qed.

Lemma health_counts_each_submission_witness :
  succeeded (snd (post_api_responses scenario_store 2000 (vote "p1" "u4" 7))) = true ∧
  total_recorded scenario_store = 3 ∧
  total_recorded (fst (post_api_responses scenario_store 2000 (vote "p1" "u4" 7))) = 4.
Proof.
  assert (succeeded (snd (post_api_responses scenario_store 2000 (vote "p1" "u4" 7)))
          = true) as Hok by (vm_compute; reflexivity).
  split; [exact Hok|].
  assert (total_recorded scenario_store = 3) as H3 by (vm_compute; reflexivity).
  split; [exact H3|].
  pose proof (health_counts_each_submission scenario_store 2000 (vote "p1" "u4" 7)
                0 0 1999 2001 _ _ Hok eq_refl eq_refl) as [Hcount _].
  cbv beta iota delta [Health.responsesCount] in Hcount.
  rewrite !responsesCount_total in Hcount.
  rewrite Hcount, H3. reflexivity.
Defined.

(** ** Saving and deleting, composed *)

Lemma elements_object_eta o : {| own := own o; proto := proto o |} = o.
Proof. by destruct o. Qed.

Lemma elements_set_plain o k e :
  plain k → elements_set o k e = {| own := <[k := e]> (own o); proto := proto o |}.
Proof.
  intros Hk. unfold elements_set.
  destruct (String.eqb_spec k "__proto__") as [-> | _]; [discriminate Hk | done].
Qed.

Lemma delete_api_elements_id_own st id e :
  own (presentationElements st) !! id = Some e →
  delete_api_elements_id st id
  = ({| currentSlide := currentSlide st;
        presentationElements := elements_delete (presentationElements st) id;
        responses := delete id (responses st) |},
     Json {| Ack.success := true; Ack.message := "Element deleted successfully" |}).
Proof.
  intros He. unfold delete_api_elements_id, elements_get. by rewrite He.
Qed.

Lemma delete_api_elements_id_absent st id :
  unshadowed st id →
  own (presentationElements st) !! id = None →
  delete_api_elements_id st id = (st, Status 404 "Element not found").
Proof.
  intros Hun Hnone. unfold delete_api_elements_id, elements_get.
  rewrite Hnone. unfold unshadowed in Hun. by rewrite Hun.
Qed.

(** X14. Deleting undoes saving: when a valid element is saved under an
    unshadowed id that was not listed and is then deleted, the delete
    succeeds, the elements and the slide are exactly those before the
    save, the responses are those before the save without the ones
    recorded under the id, and a second delete answers 404. *)
Theorem delete_undoes_create
    (st : Store) (now : Z) (body : ElementBody.t) (id type title : string) :
  ElementBody.id body = Some id → id ≠ "" →
  ElementBody.type body = Some type → type ≠ "" →
  ElementBody.title body = Some title → title ≠ "" →
  unshadowed st id →
  own (presentationElements st) !! id = None →
  let saved := fst (post_api_elements st now body) in
  let deleted := fst (delete_api_elements_id saved id) in
  snd (delete_api_elements_id saved id)
  = Json {| Ack.success := true; Ack.message := "Element deleted successfully" |} ∧
  presentationElements deleted = presentationElements st ∧
  currentSlide deleted = currentSlide st ∧
  responses deleted = delete id (responses st) ∧
  delete_api_elements_id deleted id
  = (deleted, Status NotFoundError "Element not found").
Proof.
  intros Hid Hid' Hty Hty' Hti Hti' Hun Hnone saved deleted.
  pose proof (unshadowed_plain st id Hun) as Hplain.
  unfold deleted, saved.
  rewrite (post_api_elements_saves st now body id type title) by done.
  simpl. rewrite elements_set_plain by done.
  erewrite delete_api_elements_id_own by (simpl; apply lookup_insert_eq).
  simpl. unfold elements_delete. simpl.
  rewrite delete_insert_id, elements_object_eta by done.
  split; [done|]. split; [done|]. split; [done|]. split; [done|].
  by apply delete_api_elements_id_absent.
Qed.

Lemma delete_undoes_create_witness :
  unshadowed init "p1" ∧
  presentationElements
    (fst (delete_api_elements_id (fst (post_api_elements init 1000 poll_p1)) "p1"))
  = presentationElements init.
Proof.
  assert (unshadowed init "p1") as Hun by reflexivity.
  split; [exact Hun|].
  refine (proj1 (proj2 (delete_undoes_create init 1000 poll_p1 "p1" "poll" "Pick one"
                          eq_refl _ eq_refl _ eq_refl _ Hun eq_refl)));
    discriminate.
Defined.

(** X15. Saving twice under one id keeps the second definition only: the
    store after two valid saves with the same id is the store after the
    second save alone. *)
Theorem last_save_wins
    (st : Store) (first second : Z) (b1 b2 : ElementBody.t) (id : string) :
  field (ElementBody.id b1) = Some id →
  field (ElementBody.id b2) = Some id →
  succeeded (snd (post_api_elements st first b1)) = true →
  succeeded (snd (post_api_elements st second b2)) = true →
  fst (post_api_elements (fst (post_api_elements st first b1)) second b2)
  = fst (post_api_elements st second b2).
Proof.
  unfold post_api_elements. intros -> ->.
  destruct (field (ElementBody.type b1)) as [ty1|]; [|done].
  destruct (field (ElementBody.title b1)) as [ti1|]; [|done].
  destruct (field (ElementBody.type b2)) as [ty2|]; [|done].
  destruct (field (ElementBody.title b2)) as [ti2|]; [|done].
  intros _ _. simpl. f_equal. unfold elements_set.
  destruct (String.eqb id "__proto__"); simpl; [done|].
  by rewrite insert_insert_eq.
Qed.

Lemma last_save_wins_witness :
  get_api_elements_id
    (fst (post_api_elements (fst (post_api_elements init 1000 poll_p1)) 2000 vote_p1))
    "p1"
  = get_api_elements_id (fst (post_api_elements init 2000 vote_p1)) "p1".
Proof.
  rewrite (last_save_wins init 1000 2000 poll_p1 vote_p1 "p1"
             eq_refl eq_refl eq_refl eq_refl).
  reflexivity.
Defined.

(** ** Aggregation against the order and the growth of the responses *)

Lemma votes_for_Permutation i l l' : l ≡ₚ l' → votes_for i l = votes_for i l'.
Proof. intros Hp. unfold votes_for. by rewrite Hp. Qed.

Lemma option_result_Permutation l l' index option :
  l ≡ₚ l' → option_result l index option = option_result l' index option.
Proof.
  intros Hp. unfold option_result.
  by rewrite !count_is_votes_for, (votes_for_Permutation index l l' Hp), Hp.
Qed.

(** X16. The aggregation of a choice element does not depend on the order
    of its responses: two stores with the same elements, whose responses
    under a plain id are permutations of each other, give the same
    counts, percentages and total for the element saved under that id. *)
Theorem choice_results_ignore_order
    (st st' : Store) (now : Z) (elementId : string) (e : Element.t) :
  plain elementId →
  elements_get (presentationElements st) elementId = VElement e →
  Element.type e ≠ "question" →
  presentationElements st' = presentationElements st →
  recorded st' elementId ≡ₚ recorded st elementId →
  get_api_results_elementId st' now elementId
  = get_api_results_elementId st now elementId.
Proof.
  intros Hk He Hty Hel Hp.
  rewrite (get_api_results_choice st now elementId e) by done.
  rewrite (get_api_results_choice st' now elementId e) by (by rewrite ?Hel).
  rewrite Hp at 2. do 3 f_equal.
  apply imap_ext. intros i o _. by apply option_result_Permutation.
Qed.

Lemma choice_results_ignore_order_witness :
  plain "p1" ∧
  recorded reordered_store "p1" ≡ₚ recorded scenario_store "p1" ∧
  get_api_results_elementId reordered_store 2000 "p1"
  = get_api_results_elementId scenario_store 2000 "p1".
Proof.
  assert (plain "p1") as Hk by reflexivity.
  assert (recorded reordered_store "p1" ≡ₚ recorded scenario_store "p1") as Hp.
  { vm_compute. apply perm_swap. }
  split; [exact Hk|]. split; [exact Hp|].
  refine (choice_results_ignore_order scenario_store reordered_store 2000 "p1"
            {| Element.id := "p1"; Element.type := "poll";
               Element.title := "Pick one"; Element.options := ["A"; "B"];
               Element.createdAt := 1000 |} Hk eq_refl _ eq_refl Hp).
  discriminate.
Defined.

Lemma votes_for_snoc j l r :
  votes_for j (l ++ [r])
  = votes_for j l + (if decide (Response.option r = Some (Z.of_nat j)) then 1 else 0).
Proof.
  unfold votes_for. rewrite filter_app, length_app. f_equal.
  rewrite filter_cons, filter_nil. by case_decide.
Qed.

Lemma recorded_insert cs pe (m : gmap string (list Response.t)) k v :
  recorded {| currentSlide := cs; presentationElements := pe;
              responses := <[k := v]> m |} k = v.
Proof. unfold recorded. simpl. by rewrite lookup_insert_eq. Qed.

(** X17. A vote moves one count: after a submission carrying the option
    index [i] for a choice element saved under a plain id, the total is
    one more than before, the count of option [i] is one more than before,
    and the count of every other option is as before. *)
Theorem vote_raises_one_count
    (st : Store) (now later : Z) (body : ResponseBody.t)
    (elementId user : string) (e : Element.t) (i : nat) :
  ResponseBody.elementId body = Some elementId → elementId ≠ "" →
  ResponseBody.user body = Some user → user ≠ "" →
  ResponseBody.option body = Some (Z.of_nat i) →
  plain elementId →
  elements_get (presentationElements st) elementId = VElement e →
  Element.type e ≠ "question" →
  ∃ options,
    get_api_results_elementId (fst (post_api_responses st now body)) later elementId
    = Json {| ResultsBody.elementId := elementId;
              ResultsBody.element := e;
              ResultsBody.results :=
                Choice options (Some (S (length (recorded st elementId))));
              ResultsBody.timestamp := later |} ∧
    ∀ j text,
      Element.options e !! j = Some text →
      ∃ o, options !! j = Some o ∧
           OptionResult.count o
           = votes_for j (recorded st elementId) + (if decide (j = i) then 1 else 0).
Proof.
  intros He He' Hu Hu' Ho Hk Hel Hty.
  rewrite (post_api_responses_appends st now body elementId user) by done.
  simpl. eexists. split.
  - rewrite (get_api_results_choice _ later elementId e); [|done|done|done].
    rewrite !recorded_insert, length_app, Nat.add_1_r. reflexivity.
  - intros j text Hj. eexists. rewrite list_lookup_imap, Hj. simpl.
    split; [reflexivity|]. simpl.
    rewrite count_is_votes_for, votes_for_snoc. simpl. rewrite Ho.
    f_equal. repeat case_decide; try done.
    + exfalso. apply H0. injection H as H. by apply Nat2Z.inj in H.
    + exfalso. apply H. by subst.
Qed.

Lemma vote_raises_one_count_witness :
  plain "p1" ∧
  ∃ options,
    get_api_results_elementId
      (fst (post_api_responses scenario_store 2000 (vote "p1" "u4" 1))) 2001 "p1"
    = Json {| ResultsBody.elementId := "p1";
              ResultsBody.element :=
                {| Element.id := "p1"; Element.type := "poll";
                   Element.title := "Pick one"; Element.options := ["A"; "B"];
                   Element.createdAt := 1000 |};
              ResultsBody.results := Choice options (Some 4);
              ResultsBody.timestamp := 2001 |}.
Proof.
  assert (plain "p1") as Hk by reflexivity.
  split; [exact Hk|].
  destruct (vote_raises_one_count scenario_store 2000 2001 (vote "p1" "u4" 1)
              "p1" "u4"
              {| Element.id := "p1"; Element.type := "poll";
                 Element.title := "Pick one"; Element.options := ["A"; "B"];
                 Element.createdAt := 1000 |} 1
              eq_refl ltac:(discriminate) eq_refl ltac:(discriminate) eq_refl Hk eq_refl
              ltac:(discriminate))
    as (options & Hreply & _).
  exists options. exact Hreply.
Defined.

Lemma sum_lengths_delete (m : gmap string (list Response.t)) k :
  sum_list_with length (map snd (map_to_list (delete k m)))
  + length (default [] (m !! k))
  = sum_list_with length (map snd (map_to_list m)).
Proof.
  destruct (m !! k) as [l|] eqn:Hl; simpl.
  - rewrite <- (map_to_list_delete m k l Hl). simpl. lia.
  - rewrite delete_id by done. lia.
Qed.

(** X18. Deleting a listed element lowers the [elementsCount] that
    [getHealth] reports by one and its [responsesCount] by the number of
    responses that were recorded under the id. *)
Theorem health_counts_each_delete
    (st : Store) (id : string) (e : Element.t)
    (uptime uptime' : float) (before after : Z) (h h' : Health.t) :
  own (presentationElements st) !! id = Some e →
  get_api_health st uptime before = Json h →
  get_api_health (fst (delete_api_elements_id st id)) uptime' after = Json h' →
  S (Health.elementsCount h') = Health.elementsCount h ∧
  Health.responsesCount h' + length (recorded st id) = Health.responsesCount h.
Proof.
  intros He [= <-] [= <-].
  rewrite (delete_api_elements_id_own st id e He). simpl. split.
  - rewrite map_size_delete_Some by (by eexists).
    assert (size (own (presentationElements st)) ≠ 0) as Hsize
      by (apply (map_size_ne_0_lookup_2 _ id); by eexists).
    lia.
  - rewrite !foldl_add_length. simpl. apply sum_lengths_delete.
Qed.

Lemma health_counts_each_delete_witness :
  total_recorded scenario_store = 3 ∧
  total_recorded (fst (delete_api_elements_id scenario_store "p1")) = 0.
Proof.
  assert (total_recorded scenario_store = 3) as H3 by (vm_compute; reflexivity).
  split; [exact H3|].
  pose proof (health_counts_each_delete scenario_store "p1"
                {| Element.id := "p1"; Element.type := "poll";
                   Element.title := "Pick one"; Element.options := ["A"; "B"];
                   Element.createdAt := 1000 |}
                0 0 1999 2001 _ _ eq_refl eq_refl eq_refl) as [_ Hcount].
  cbv beta iota delta [Health.responsesCount] in Hcount.
  rewrite !responsesCount_total in Hcount.
  assert (length (recorded scenario_store "p1") = 3) as Hlen by (vm_compute; reflexivity).
  rewrite Hlen, H3 in Hcount. lia.
Defined.

(** ** Slide changes with and without a name *)

(** X19. After any run of [setSlide] calls, [getSlide()] returns the name
    of the last call that carried a non-empty name; calls without one are
    refused and skipped, and if no call carried a name the slide is the one
    from before the run. *)
Theorem current_slide_is_last_named
    (st : Store) (calls : list (Z * option string)) (now : Z) :
  get_api_current_slide (sync_all st calls) now
  = Json {| CurrentSlide.currentSlide := default (currentSlide st) (last_slide calls);
            CurrentSlide.timestamp := now |}.
Proof.
  unfold get_api_current_slide. f_equal. f_equal.
  induction calls as [|[t name] calls IH] using rev_ind; [done|].
  unfold sync_all, last_slide in *. rewrite foldl_app, omap_app. simpl.
  unfold get_api_sync. destruct (field name) as [slideName|]; simpl.
  - by rewrite last_snoc.
  - by rewrite app_nil_r.
Qed.
